(** * survey_condition_validation_option: bounds validation of survey answers

    A shallow embedding of
    [survey_condition_validation_option/models/survey_question.py]
    (class [SurveyQuestion], inheriting Odoo's [survey.question]) and the
    properties of its three methods:

    - [_compute_validation_required]  (source lines 65-75)
    - [_validate_choice]              (source lines 77-120)
    - [_validate_date]                (source lines 122-247)

    Conventions of the embedding.

    - A Python [dict] result is a [gmap Z string] from question id to message;
      its truthiness is non-emptiness.
    - Odoo fields that hold [False] when unset are [option]s; a Python string
      is falsy when it is [False] or empty.
    - Odoo [Integer] fields and Python [int]s are [Z].
    - A [datetime.date] is the number of days since 1970-01-01 and a naive
      [datetime.datetime] the number of seconds since 1970-01-01 00:00:00,
      both in the proleptic Gregorian calendar and both in [Z]; the
      [MINYEAR]/[MAXYEAR] limits of the Python library are not modelled.
    - Exceptions are explicit: a method returns [Return v] or [Raise e],
      together with the lines written to the module logger.
    - The host framework (the parent class, the field parsers, pytz) is not
      part of this module: it is taken as a parameter, and a small reference
      instance is given for running the code on concrete inputs. *)

From Stdlib Require Import ZArith Lia Ascii String.
From stdpp Require Import base decidable option list strings gmap pretty.

Local Open Scope string_scope.
Local Open Scope Z_scope.

(** ** Python values and truthiness *)

Definition truthy_str (s : option string) : bool :=
  match s with
  | Some s => negb (String.eqb s "")
  | None => false
  end.

(** [a or b] on an optional string [a] and a string [b]. *)
Definition str_or (a : option string) (b : string) : string :=
  match a with
  | Some s => if String.eqb s "" then b else s
  | None => b
  end.

(** Truthiness of a [dict]. *)
Definition truthy_dict (d : gmap Z string) : bool :=
  negb (bool_decide (d = ∅)).

(** [str(n)] for a Python [int]. *)
Definition str_int (n : Z) : string := pretty n.

(** ** The record [survey.question], restricted to the fields the module reads *)

Record survey_question := SurveyQuestion {
  id : Z;
  question_type : string;
  validation_required : bool;
  validation_error_msg : option string;
  suggested_answer_ids : list Z;
  validation_min_multiple_choice_option : Z;
  validation_max_multiple_choice_option : Z;
  validation_min_datetime_option : option string;
  validation_max_datetime_option : option string;
  validation_min_date_option : option string;
  validation_max_date_option : option string;
  validation_min_date : option Z;
  validation_max_date : option Z;
  validation_min_datetime : option Z;
  validation_max_datetime : option Z
}.

Definition set_validation_required (q : survey_question) (b : bool)
  : survey_question :=
  {| id := id q;
     question_type := question_type q;
     validation_required := b;
     validation_error_msg := validation_error_msg q;
     suggested_answer_ids := suggested_answer_ids q;
     validation_min_multiple_choice_option :=
       validation_min_multiple_choice_option q;
     validation_max_multiple_choice_option :=
       validation_max_multiple_choice_option q;
     validation_min_datetime_option := validation_min_datetime_option q;
     validation_max_datetime_option := validation_max_datetime_option q;
     validation_min_date_option := validation_min_date_option q;
     validation_max_date_option := validation_max_date_option q;
     validation_min_date := validation_min_date q;
     validation_max_date := validation_max_date q;
     validation_min_datetime := validation_min_datetime q;
     validation_max_datetime := validation_max_datetime q |}.

Definition set_question_type (q : survey_question) (t : string)
  : survey_question :=
  {| id := id q;
     question_type := t;
     validation_required := validation_required q;
     validation_error_msg := validation_error_msg q;
     suggested_answer_ids := suggested_answer_ids q;
     validation_min_multiple_choice_option :=
       validation_min_multiple_choice_option q;
     validation_max_multiple_choice_option :=
       validation_max_multiple_choice_option q;
     validation_min_datetime_option := validation_min_datetime_option q;
     validation_max_datetime_option := validation_max_datetime_option q;
     validation_min_date_option := validation_min_date_option q;
     validation_max_date_option := validation_max_date_option q;
     validation_min_date := validation_min_date q;
     validation_max_date := validation_max_date q;
     validation_min_datetime := validation_min_datetime q;
     validation_max_datetime := validation_max_datetime q |}.

(** ** [_compute_validation_required] (lines 65-75) *)

Definition supported_types : list string :=
  ["char_box"; "numerical_box"; "date"; "datetime"; "multiple_choice"].

(** [x in l] for a list of strings. *)
Definition str_in (x : string) (l : list string) : bool :=
  existsb (String.eqb x) l.

(** The body of the loop, for one record of the record set. *)
Definition compute_validation_required_one (question : survey_question)
  : survey_question :=
  if negb (validation_required question)
     || negb (str_in (question_type question) supported_types)
  then set_validation_required question false
  else question.

(** [for question in self: ...]: the record set after the method has run. *)
Definition _compute_validation_required (self : list survey_question)
  : list survey_question :=
  map compute_validation_required_one self.

(** ** [_validate_choice] (lines 77-120) *)

(** The answer of a choice question: a list of suggested-answer ids, or the
    single id as a string (the quirk described at lines 86-88). *)
Inductive choice_answer :=
  | AnswerList (ids : list Z)
  | AnswerStr (s : string).

(** [len(answer) if isinstance(answer, list) else 1] *)
Definition answer_count (answer : choice_answer) : Z :=
  match answer with
  | AnswerList ids => Z.of_nat (length ids)
  | AnswerStr _ => 1
  end.

Definition min_value (self : survey_question) : Z :=
  if validation_min_multiple_choice_option self =? -1 then 0
  else validation_min_multiple_choice_option self.

Definition max_value (self : survey_question) : Z :=
  if validation_max_multiple_choice_option self =? -1
  then Z.of_nat (length (suggested_answer_ids self))
  else validation_max_multiple_choice_option self.

Definition msg_choice_exact (mn cnt : Z) : string :=
  "You need to select " +:+ str_int mn +:+ " answer, you chose "
  +:+ str_int cnt +:+ " answer.".

Definition msg_choice_between (mn mx cnt : Z) : string :=
  "You need to select between " +:+ str_int mn +:+ " and " +:+ str_int mx
  +:+ " answers, you chose " +:+ str_int cnt +:+ " answer.".

Section Choice.

(** [super()._validate_choice(answer, comment)], of the parent class. *)
Variable super_validate_choice :
  survey_question → choice_answer → option string → gmap Z string.

Definition _validate_choice (self : survey_question)
    (answer : choice_answer) (comment : option string) : gmap Z string :=
  let res := super_validate_choice self answer comment in
  if truthy_dict res
     || negb (String.eqb (question_type self) "multiple_choice")
     || negb (validation_required self)
  then res
  else
    let answer_count := answer_count answer in
    let min_value := min_value self in
    let max_value := max_value self in
    if negb ((min_value <=? answer_count) && (answer_count <=? max_value))
    then
      if min_value =? max_value
      then {[ id self :=
                str_or (validation_error_msg self)
                  (msg_choice_exact min_value answer_count) ]}
      else {[ id self :=
                str_or (validation_error_msg self)
                  (msg_choice_between min_value max_value answer_count) ]}
    else ∅.

End Choice.

(** The bounds as the specification words them: a configured bound counts
    when it is non-negative. *)
Definition spec_effective_min (self : survey_question) : Z :=
  if 0 <=? validation_min_multiple_choice_option self
  then validation_min_multiple_choice_option self
  else 0.

Definition spec_effective_max (self : survey_question) : Z :=
  if 0 <=? validation_max_multiple_choice_option self
  then validation_max_multiple_choice_option self
  else Z.of_nat (length (suggested_answer_ids self)).

(** The parent class of the reference instance: Odoo's own
    [_validate_choice] only checks mandatory questions; a question that is
    not mandatory always passes. *)
Definition super_validate_choice_optional
    (self : survey_question) (answer : choice_answer)
    (comment : option string) : gmap Z string := ∅.

Definition sample_choice_question (mn mx : Z) (msg : option string)
  : survey_question :=
  {| id := 7;
     question_type := "multiple_choice";
     validation_required := true;
     validation_error_msg := msg;
     suggested_answer_ids := [11; 12; 13; 14; 15];
     validation_min_multiple_choice_option := mn;
     validation_max_multiple_choice_option := mx;
     validation_min_datetime_option := None;
     validation_max_datetime_option := None;
     validation_min_date_option := None;
     validation_max_date_option := None;
     validation_min_date := None;
     validation_max_date := None;
     validation_min_datetime := None;
     validation_max_datetime := None |}.

(** ** Dates and times

    The part of Python's [datetime], [dateutil] and [pytz] that
    [_validate_date] uses. *)

Inductive exn := ValueError | TypeError.

Inductive outcome (A : Type) :=
  | Return (a : A)
  | Raise (e : exn).
Arguments Return {A} a.
Arguments Raise {A} e.

(** A [datetime.date]: days since 1970-01-01. *)
Definition date := Z.
(** A naive [datetime.datetime]: seconds since 1970-01-01 00:00:00. *)
Definition datetime := Z.
(** A [tzinfo]: the UTC offset, in seconds east of UTC, in force at a UTC
    instant. *)
Definition tzinfo := Z → Z.

Definition is_leap (y : Z) : bool :=
  (y mod 4 =? 0) && (negb (y mod 100 =? 0) || (y mod 400 =? 0)).

Definition days_in_month (y m : Z) : Z :=
  if m =? 2 then (if is_leap y then 29 else 28)
  else if (m =? 4) || (m =? 6) || (m =? 9) || (m =? 11) then 30
  else 31.

(** Day number of the civil date [y]-[m]-[d]. *)
Definition days_from_civil (y m d : Z) : Z :=
  let y' := if m <=? 2 then y - 1 else y in
  let era := y' / 400 in
  let yoe := y' - era * 400 in
  let doy := (153 * (if 2 <? m then m - 3 else m + 9) + 2) / 5 + d - 1 in
  let doe := yoe * 365 + yoe / 4 - yoe / 100 + doy in
  era * 146097 + doe - 719468.

(** Year, month and day of a day number. *)
Definition civil_from_days (z : Z) : Z * Z * Z :=
  let z' := z + 719468 in
  let era := z' / 146097 in
  let doe := z' - era * 146097 in
  let yoe := (doe - doe / 1460 + doe / 36524 - doe / 146096) / 365 in
  let doy := doe - (365 * yoe + yoe / 4 - yoe / 100) in
  let mp := (5 * doy + 2) / 153 in
  let d := doy - (153 * mp + 2) / 5 + 1 in
  let m := if mp <? 10 then mp + 3 else mp - 9 in
  (yoe + era * 400 + (if m <=? 2 then 1 else 0), m, d).

Definition year (d : date) : Z := (civil_from_days d).1.1.
Definition month (d : date) : Z := (civil_from_days d).1.2.
Definition day (d : date) : Z := (civil_from_days d).2.

(** The constructor [datetime(year, month, day, hour=0)]: [ValueError] when
    a field is out of range. *)
Definition new_datetime (y m d h : Z) : outcome datetime :=
  if (1 <=? m) && (m <=? 12) && (1 <=? d) && (d <=? days_in_month y m)
     && (0 <=? h) && (h <=? 23)
  then Return (days_from_civil y m d * 86400 + h * 3600)
  else Raise ValueError.

(** [dt.astimezone(tz)] on a naive [dt], read as wall-clock time: the naive
    value is taken in the server's local zone, which Odoo pins to UTC. *)
Definition astimezone (dt : datetime) (tz : tzinfo) : datetime :=
  dt + tz dt.

(** [now.date()] of the aware [datetime.now(tz)], for the UTC instant
    [now]: the calendar date on the user's wall clock. *)
Definition aware_date (now : datetime) (tz : tzinfo) : date :=
  (now + tz now) / 86400.

(** [now.utcoffset().total_seconds()] of the same. *)
Definition utcoffset_seconds (now : datetime) (tz : tzinfo) : Z := tz now.

(** [int(seconds / 3600)]: the float quotient cut toward zero. *)
Definition int_hours (seconds : Z) : Z := Z.quot seconds 3600.

Fixpoint zeros (n : nat) : string :=
  match n with
  | O => ""
  | S n => "0" +:+ zeros n
  end.

(** [s], left-padded with zeros to [width] characters. *)
Definition zero_pad (width : nat) (s : string) : string :=
  zeros (width - String.length s) +:+ s.

(** The format [%0<width>d] on a field of a date or of a time. *)
Definition fmt_field (width : nat) (n : Z) : string :=
  zero_pad width (pretty (Z.to_N n)).

(** [str(d)] for a date: [YYYY-MM-DD]. *)
Definition str_date (d : date) : string :=
  fmt_field 4 (year d) +:+ "-" +:+ fmt_field 2 (month d)
  +:+ "-" +:+ fmt_field 2 (day d).

(** [dt.strftime("%Y-%m-%d %H:%M:%S")], the year on four digits (the C
    library behind [%Y] may print a year below 1000 without padding). *)
Definition strftime (dt : datetime) : string :=
  let sod := dt mod 86400 in
  str_date (dt / 86400) +:+ " " +:+ fmt_field 2 (sod / 3600)
  +:+ ":" +:+ fmt_field 2 (sod mod 3600 / 60)
  +:+ ":" +:+ fmt_field 2 (sod mod 60).

(** ** The logging and exception monad *)

Record M (A : Type) := Run {
  log : list string;
  result : outcome A
}.
Arguments Run {A} log result.
Arguments log {A} m.
Arguments result {A} m.

#[global] Instance M_ret : MRet M := λ A a, Run [] (Return a).
#[global] Instance M_bind : MBind M := λ A B f m,
  match result m with
  | Return a => Run (log m ++ log (f a)) (result (f a))
  | Raise e => Run (log m) (Raise e)
  end.

Definition raise {A} (e : exn) : M A := Run [] (Raise e).
Definition lift {A} (o : outcome A) : M A := Run [] o.
(** [_logger.error(line)] *)
Definition logger_error (line : string) : M unit := Run [line] (Return tt).

(** ** [_validate_date] (lines 122-247) *)

(** What the method reads from [self.env] and from the clock. *)
Record env := Env {
  user_tz : option string;   (* self.env.user.tz *)
  now_utc : datetime         (* the instant of the call, in UTC *)
}.

(** [opt == "today"] on a selection value. *)
Definition is_today (opt : option string) : bool :=
  match opt with
  | Some s => String.eqb s "today"
  | None => false
  end.

Definition show_opt (opt : option string) : string :=
  match opt with
  | Some s => s
  | None => "False"
  end.

(** The line logged for an anchor that is not ["today"]. *)
Definition missing_information (field value : string) : string :=
  "Missing information about " +:+ field +:+ ": " +:+ value.

Definition msg_not_a_date : string := "This is not a date".

Definition msg_between (date_min_show date_max_show : string) : string :=
  "The date needs to be between " +:+ date_min_show +:+ " and "
  +:+ date_max_show +:+ ".".

Definition msg_after (date_min_show : string) : string :=
  "The date needs to be after " +:+ date_min_show +:+ ".".

Definition msg_before (date_max_show : string) : string :=
  "The date needs to be before " +:+ date_max_show +:+ ".".

(** [a <= b] where [b] is the parsed answer, which is [None] for an empty
    answer: comparing a date with [None] raises [TypeError]. *)
Definition le_answer (a : Z) (b : option Z) : outcome bool :=
  match b with
  | Some b => Return (a <=? b)
  | None => Raise TypeError
  end.

Definition answer_le (a : option Z) (b : Z) : outcome bool :=
  match a with
  | Some a => Return (a <=? b)
  | None => Raise TypeError
  end.

(** [a <= x <= b], evaluated left to right. *)
Definition between (a : Z) (x : option Z) (b : Z) : outcome bool :=
  match le_answer a x with
  | Return true => answer_le x b
  | r => r
  end.

(** The bounds in force and the delay taken off the maximum. *)
Record bounds := Bounds {
  min_date : option Z;
  max_date : option Z;
  nb_second_delay : Z
}.

(** Lines 146-159: the minimum of a datetime question. The explicit bound
    [validation_min_datetime] is already a datetime, or [False]:
    [fields.Datetime.from_string] hands the former back and turns the latter
    into [None]; likewise for the three other explicit bounds. *)
Definition datetime_min_bound (self : survey_question) (date_now : date)
    (diff_hour : Z) : M (option datetime) :=
  if truthy_str (validation_min_datetime_option self) then
    if is_today (validation_min_datetime_option self) then
      let today := date_now in
      d ← lift (new_datetime (year today) (month today) (day today) 0);
      mret (Some (d - diff_hour * 3600))
    else
      _ ← logger_error
            (missing_information "validation_min_datetime_option"
               (show_opt (validation_min_datetime_option self)));
      mret None
  else mret (validation_min_datetime self).

(** Lines 160-177: the maximum of a datetime question and the delay. *)
Definition datetime_max_bound (self : survey_question) (date_now : date)
    (diff_hour : Z) : M (option datetime * Z) :=
  if truthy_str (validation_max_datetime_option self) then
    if is_today (validation_max_datetime_option self) then
      let today := date_now + 1 in
      let nb_second_delay := 1 in
      d ← lift (new_datetime (year today) (month today) (day today)
                  (- diff_hour));
      mret (Some (d - nb_second_delay), nb_second_delay)
    else
      _ ← logger_error
            (missing_information "validation_max_datetime_option"
               (show_opt (validation_max_datetime_option self)));
      mret (None, 0)
  else mret (validation_max_datetime self, 0).

(** Lines 180-190: the minimum of a date question. *)
Definition date_min_bound (self : survey_question) (date_now : date)
  : M (option date) :=
  if truthy_str (validation_min_date_option self) then
    if is_today (validation_min_date_option self) then
      mret (Some date_now)
    else
      _ ← logger_error
            (missing_information "validation_min_date_option"
               (show_opt (validation_min_date_option self)));
      mret None
  else mret (validation_min_date self).

(** Lines 191-201: the maximum of a date question. *)
Definition date_max_bound (self : survey_question) (date_now : date)
  : M (option date) :=
  if truthy_str (validation_max_date_option self) then
    if is_today (validation_max_date_option self) then
      mret (Some date_now)
    else
      _ ← logger_error
            (missing_information "validation_max_date_option"
               (show_opt (validation_max_date_option self)));
      mret None
  else mret (validation_max_date self).

(** Lines 145-201. *)
Definition resolve_bounds (self : survey_question) (is_datetime : bool)
    (date_now : date) (diff_hour : Z) : M bounds :=
  if is_datetime then
    mn ← datetime_min_bound self date_now diff_hour;
    mx ← datetime_max_bound self date_now diff_hour;
    mret (Bounds mn mx.1 mx.2)
  else
    mn ← date_min_bound self date_now;
    mx ← date_max_bound self date_now;
    mret (Bounds mn mx 0).

(** The displayed bounds of lines 205-216, 223-227 and 233-239, as strings.
    They are what the code builds while the shifted bound stays inside
    Python's calendar; at a bound on an end of the calendar the code raises
    instead ([can_show] below is the condition under which it does not). *)
Definition date_min_show (is_datetime : bool) (user_timezone : tzinfo)
    (mn : Z) : string :=
  if negb is_datetime then str_date (mn - 1)
  else strftime (astimezone mn user_timezone).

Definition date_max_show (is_datetime : bool) (user_timezone : tzinfo)
    (mx delay : Z) : string :=
  if negb is_datetime then str_date (mx + 1)
  else strftime (astimezone (mx + delay) user_timezone).

(** Lines 204-247: the comparison and the message. *)
Definition check_range (self : survey_question) (is_datetime : bool)
    (user_timezone : tzinfo) (b : bounds) (dateanswer : option Z)
  : outcome (gmap Z string) :=
  let error msg :=
    Return {[ id self := str_or (validation_error_msg self) msg ]} in
  match min_date b, max_date b with
  | Some mn, Some mx =>
      match between mn dateanswer mx with
      | Raise e => Raise e
      | Return false =>
          error (msg_between
                   (date_min_show is_datetime user_timezone mn)
                   (date_max_show is_datetime user_timezone mx
                      (nb_second_delay b)))
      | Return true =>
          (* elif min_date and not min_date <= dateanswer *)
          match le_answer mn dateanswer with
          | Raise e => Raise e
          | Return false =>
              error (msg_after (date_min_show is_datetime user_timezone mn))
          | Return true =>
              (* elif max_date and not dateanswer <= max_date *)
              match answer_le dateanswer mx with
              | Raise e => Raise e
              | Return false =>
                  error (msg_before
                           (date_max_show is_datetime user_timezone mx 1))
              | Return true => Return ∅
              end
          end
      end
  | Some mn, None =>
      match le_answer mn dateanswer with
      | Raise e => Raise e
      | Return false =>
          error (msg_after (date_min_show is_datetime user_timezone mn))
      | Return true => Return ∅
      end
  | None, Some mx =>
      match answer_le dateanswer mx with
      | Raise e => Raise e
      | Return false =>
          error (msg_before (date_max_show is_datetime user_timezone mx 1))
      | Return true => Return ∅
      end
  | None, None => Return ∅
  end.

Section ValidateDate.

(** [fields.Date.from_string] and [fields.Datetime.from_string] of the host:
    a value, [None] for an empty input, or an exception. *)
Variable Date_from_string : string → outcome (option date).
Variable Datetime_from_string : string → outcome (option datetime).
(** [pytz.timezone] *)
Variable timezone : string → tzinfo.

Definition _validate_date (self : survey_question) (answer : string)
    (e : env) : M (gmap Z string) :=
  let is_datetime := String.eqb (question_type self) "datetime" in
  match (if is_datetime then Datetime_from_string answer
         else Date_from_string answer) with
  | Raise ValueError => mret {[ id self := msg_not_a_date ]}
  | Raise err => raise err
  | Return dateanswer =>
      if negb (validation_required self) then mret ∅
      else
        let user_timezone := timezone (str_or (user_tz e) "UTC") in
        let time_now := now_utc e in
        let date_now := aware_date time_now user_timezone in
        let decalage_horaire := utcoffset_seconds time_now user_timezone in
        let diff_hour := int_hours decalage_horaire in
        b ← resolve_bounds self is_datetime date_now diff_hour;
        lift (check_range self is_datetime user_timezone b dateanswer)
  end.

End ValidateDate.

(** ** A reference host

    An instance of the host's parsers and zones, to run the methods on
    concrete inputs. The parsers take the canonical server formats
    [YYYY-MM-DD] and [YYYY-MM-DD HH:MM:SS]; as in the host, an empty input
    gives [None], the input is cut to the length of the format, and a
    datetime given as a bare date is midnight. The zones are a few that
    have kept one offset throughout. *)

Definition digit_of (c : ascii) : option Z :=
  let n := Z.of_N (N_of_ascii c) in
  if (48 <=? n) && (n <=? 57) then Some (n - 48) else None.

Fixpoint parse_digits (n : nat) (acc : Z) (l : list ascii)
  : option (Z * list ascii) :=
  match n with
  | O => Some (acc, l)
  | S n' =>
      match l with
      | c :: l' => d ← digit_of c; parse_digits n' (acc * 10 + d) l'
      | [] => None
      end
  end.

Definition expect (c : ascii) (l : list ascii) : option (list ascii) :=
  match l with
  | c' :: l' => if Ascii.eqb c c' then Some l' else None
  | [] => None
  end.

Definition parse_ymd (l : list ascii) : option (date * list ascii) :=
  '(y, l) ← parse_digits 4 0 l;
  l ← expect "-"%char l;
  '(m, l) ← parse_digits 2 0 l;
  l ← expect "-"%char l;
  '(d, l) ← parse_digits 2 0 l;
  if (1 <=? y) && (1 <=? m) && (m <=? 12) && (1 <=? d)
     && (d <=? days_in_month y m)
  then Some (days_from_civil y m d, l)
  else None.

Definition parse_hms (l : list ascii) : option (Z * list ascii) :=
  '(h, l) ← parse_digits 2 0 l;
  l ← expect ":"%char l;
  '(mi, l) ← parse_digits 2 0 l;
  l ← expect ":"%char l;
  '(s, l) ← parse_digits 2 0 l;
  if (h <=? 23) && (mi <=? 59) && (s <=? 59)
  then Some (h * 3600 + mi * 60 + s, l)
  else None.

Definition ref_Date_from_string (value : string) : outcome (option date) :=
  if String.eqb value "" then Return None
  else
    match parse_ymd (list_ascii_of_string (substring 0 10 value)) with
    | Some (d, []) => Return (Some d)
    | _ => Raise ValueError
    end.

Definition ref_Datetime_from_string (value : string)
  : outcome (option datetime) :=
  if String.eqb value "" then Return None
  else
    let value := substring 0 19 value in
    let value :=
      if (String.length value =? 10)%nat then value +:+ " 00:00:00"
      else value in
    match (
      '(d, l) ← parse_ymd (list_ascii_of_string value);
      l ← expect " "%char l;
      '(s, l) ← parse_hms l;
      match l with [] => Some (d * 86400 + s) | _ => None end) with
    | Some dt => Return (Some dt)
    | None => Raise ValueError
    end.

Definition ref_timezone (name : string) : tzinfo :=
  λ _,
    if String.eqb name "Africa/Lagos" then 3600
    else if String.eqb name "Asia/Kolkata" then 19800
    else if String.eqb name "Asia/Tokyo" then 32400
    else if String.eqb name "America/Bogota" then -18000
    else 0.

(** The methods on the reference host. *)
Definition validate_date :=
  _validate_date ref_Date_from_string ref_Datetime_from_string ref_timezone.

Definition validate_choice :=
  _validate_choice super_validate_choice_optional.

(** A question with only its kind, its flag and its date settings filled. *)
Definition date_question (kind : string) (required : bool)
    (msg : option string)
    (min_dt_opt max_dt_opt min_d_opt max_d_opt : option string)
    (min_d max_d min_dt max_dt : option Z) : survey_question :=
  {| id := 42;
     question_type := kind;
     validation_required := required;
     validation_error_msg := msg;
     suggested_answer_ids := [];
     validation_min_multiple_choice_option := -1;
     validation_max_multiple_choice_option := -1;
     validation_min_datetime_option := min_dt_opt;
     validation_max_datetime_option := max_dt_opt;
     validation_min_date_option := min_d_opt;
     validation_max_date_option := max_d_opt;
     validation_min_date := min_d;
     validation_max_date := max_d;
     validation_min_datetime := min_dt;
     validation_max_datetime := max_dt |}.

(** 2024-01-15 12:00:00 UTC. *)
Definition noon_2024_01_15 : datetime := 19737 * 86400 + 12 * 3600.

(** The two shapes of a result: the empty mapping, or one message under the
    question's id. *)
Definition is_valid (r : outcome (gmap Z string)) : Prop := r = Return ∅.

Definition is_error (self : survey_question) (r : outcome (gmap Z string))
  : Prop :=
  ∃ msg, r = Return {[ id self := msg ]}.

(** Sample questions and calls. 2024-01-15 is day 19737 and 2024-01-01 is
    day 19723. *)

(** A datetime question open for the whole of today. *)
Definition today_window_question : survey_question :=
  date_question "datetime" true None (Some "today") (Some "today")
    None None None None None None.

(** A datetime question closing at 2024-01-01 00:00:00, with no anchor. *)
Definition closing_question : survey_question :=
  date_question "datetime" true None None None None None
    None None None (Some (19723 * 86400)).

(** A datetime question whose minimum anchor is not a known one. *)
Definition unknown_min_anchor_question : survey_question :=
  date_question "datetime" true None (Some "tomorrow") (Some "today")
    None None None None None None.

(** A date question open today only, with and without a custom message. *)
Definition today_only_question (msg : option string) : survey_question :=
  date_question "date" true msg None None (Some "today") (Some "today")
    None None None None.

(** A free-text question carrying the date settings of the former. *)
Definition char_box_question : survey_question :=
  date_question "char_box" true None None None (Some "today") (Some "today")
    None None None None.

Definition env_utc : env := Env None noon_2024_01_15.
Definition env_lagos : env := Env (Some "Africa/Lagos") noon_2024_01_15.
Definition env_tokyo : env := Env (Some "Asia/Tokyo") noon_2024_01_15.
Definition env_kolkata : env := Env (Some "Asia/Kolkata") noon_2024_01_15.
Definition env_bogota : env := Env (Some "America/Bogota") noon_2024_01_15.

(** ** Notions for the further properties *)

(** Two questions set the same bound on one side: the same anchor, and the
    same explicit bound unless the anchor is set. *)
Definition same_side (opt opt' : option string) (bound bound' : option Z)
  : Prop :=
  opt = opt' ∧ (truthy_str opt = false → bound = bound').

(** Two questions agree on the date settings that belong to the kind of the
    first. *)
Definition same_date_settings (q q' : survey_question) : Prop :=
  if String.eqb (question_type q) "datetime" then
    same_side (validation_min_datetime_option q)
      (validation_min_datetime_option q')
      (validation_min_datetime q) (validation_min_datetime q')
    ∧ same_side (validation_max_datetime_option q)
        (validation_max_datetime_option q')
        (validation_max_datetime q) (validation_max_datetime q')
  else
    same_side (validation_min_date_option q) (validation_min_date_option q')
      (validation_min_date q) (validation_min_date q')
    ∧ same_side (validation_max_date_option q)
        (validation_max_date_option q')
        (validation_max_date q) (validation_max_date q').

(** An anchor that is unset or is ["today"]. *)
Definition known_anchor (opt : option string) : Prop :=
  truthy_str opt = true → is_today opt = true.

(** The anchors of the kind of [q] are known. *)
Definition known_anchors (q : survey_question) : Prop :=
  if String.eqb (question_type q) "datetime" then
    known_anchor (validation_min_datetime_option q)
    ∧ known_anchor (validation_max_datetime_option q)
  else
    known_anchor (validation_min_date_option q)
    ∧ known_anchor (validation_max_date_option q).

(** A datetime question opening today, with no end. *)
Definition opening_today_question : survey_question :=
  date_question "datetime" true None (Some "today") None
    None None None None None None.

(** The date question open today only, carrying besides an explicit minimum
    that its anchor overrides and datetime settings of no use to it. *)
Definition today_only_cluttered_question : survey_question :=
  date_question "date" true None (Some "tomorrow") (Some "today")
    (Some "today") (Some "today") (Some 0) None (Some 5) (Some 6).

(** A flagged matrix question and a flagged date question. *)
Definition mixed_record_set : list survey_question :=
  [date_question "matrix" true None None None (Some "today") (Some "today")
     None None None None;
   today_only_question None].

(** A parent class that fails every question, as for a mandatory question
    left unanswered. *)
Definition super_validate_choice_mandatory
    (self : survey_question) (answer : choice_answer)
    (comment : option string) : gmap Z string :=
  {[ id self := "This question requires an answer." ]}.

(** ** The ends of the calendar

    Python's dates run from 0001-01-01 to 9999-12-31. The code builds the
    displayed bounds before it picks the message (lines 205-216, 223-227,
    233-239): a date bound a day past an end of the calendar raises
    [OverflowError], and so does a datetime bound whose displayed value
    leaves the calendar, while [astimezone] on a naive datetime of
    0001-01-01 raises [ValueError]. The embedding has no such limit, so a
    property of the message, or of the result where a message is due, is
    stated for bounds that can be shown. *)

Definition calendar_first : date := days_from_civil 1 1 1.
Definition calendar_last : date := days_from_civil 9999 12 31.

Definition in_calendar_date (d : date) : Prop :=
  calendar_first ≤ d ≤ calendar_last.

Definition in_calendar_datetime (t : datetime) : Prop :=
  calendar_first * 86400 ≤ t ≤ calendar_last * 86400 + 86399.

(** The displayed minimum can be built. *)
Definition can_show_min (is_datetime : bool) (user_timezone : tzinfo)
    (mn : Z) : Prop :=
  if is_datetime
  then (calendar_first + 1) * 86400 ≤ mn
       ∧ in_calendar_datetime mn
       ∧ in_calendar_datetime (astimezone mn user_timezone)
  else in_calendar_date mn ∧ in_calendar_date (mn - 1).

(** The displayed maximum can be built, [delay] seconds being added back
    on a datetime. *)
Definition can_show_max (is_datetime : bool) (user_timezone : tzinfo)
    (mx delay : Z) : Prop :=
  if is_datetime
  then (calendar_first + 1) * 86400 ≤ mx + delay
       ∧ in_calendar_datetime mx
       ∧ in_calendar_datetime (mx + delay)
       ∧ in_calendar_datetime (astimezone (mx + delay) user_timezone)
  else in_calendar_date mx ∧ in_calendar_date (mx + 1).

(** The displayed values that a failing comparison against [b] builds. *)
Definition can_show (is_datetime : bool) (user_timezone : tzinfo)
    (b : bounds) : Prop :=
  match min_date b, max_date b with
  | Some mn, Some mx =>
      can_show_min is_datetime user_timezone mn
      ∧ can_show_max is_datetime user_timezone mx (nb_second_delay b)
  | Some mn, None => can_show_min is_datetime user_timezone mn
  | None, Some mx => can_show_max is_datetime user_timezone mx 1
  | None, None => True
  end.

(** The same for the outcome of the resolution; nothing is shown when the
    resolution raises. *)
Definition resolved_can_show (is_datetime : bool) (user_timezone : tzinfo)
    (r : M bounds) : Prop :=
  match result r with
  | Return b => can_show is_datetime user_timezone b
  | Raise _ => True
  end.


(** * Properties *)

(** ** The calendar

    The fields of a date are a valid civil date, and the constructor gives
    the date back. *)

Lemma is_leap_era y e : is_leap (y + e * 400) = is_leap y.
Proof.
  unfold is_leap.
  replace ((y + e * 400) mod 4) with (y mod 4)
    by (replace (e * 400) with (e * 100 * 4) by lia;
        by rewrite Z_mod_plus_full).
  replace ((y + e * 400) mod 100) with (y mod 100)
    by (replace (e * 400) with (e * 4 * 100) by lia;
        by rewrite Z_mod_plus_full).
  by rewrite Z_mod_plus_full.
Qed.

Lemma days_in_month_era y e m :
  days_in_month (y + e * 400) m = days_in_month y m.
Proof. unfold days_in_month. by rewrite is_leap_era. Qed.

(** The year of the era of a day of the era, and the day of that year. *)
Lemma year_of_era doe :
  0 ≤ doe < 146097 →
  let yoe := (doe - doe / 1460 + doe / 36524 - doe / 146096) / 365 in
  let doy := doe - (365 * yoe + yoe / 4 - yoe / 100) in
  0 ≤ yoe < 400 ∧ 0 ≤ doy < 366 ∧ (doy = 365 → is_leap (yoe + 1) = true).
Proof.
  intros H yoe doy. subst doy yoe. unfold is_leap.
  split; [|split].
  - Z.div_mod_to_equations; lia.
  - Z.div_mod_to_equations; lia.
  - intros Hd. apply andb_true_iff. rewrite orb_true_iff, negb_true_iff.
    rewrite !Z.eqb_eq, Z.eqb_neq.
    Z.div_mod_to_equations; lia.
Qed.

(** The month and the day of a day of the year counted from March 1. *)
Lemma month_of_year doy y :
  0 ≤ doy < 366 → (doy = 365 → is_leap y = true) →
  let mp := (5 * doy + 2) / 153 in
  let d := doy - (153 * mp + 2) / 5 + 1 in
  let m := if mp <? 10 then mp + 3 else mp - 9 in
  1 ≤ m ≤ 12 ∧ (if 2 <? m then m - 3 else m + 9) = mp ∧
  ((m <=? 2) = true → 1 ≤ d ≤ days_in_month y m) ∧
  ((m <=? 2) = false → ∀ y', 1 ≤ d ≤ days_in_month y' m).
Proof.
  intros H Hleap mp d m.
  assert (Hmp : 0 ≤ mp < 12) by (subst mp; Z.div_mod_to_equations; lia).
  assert (mp = 0 ∨ mp = 1 ∨ mp = 2 ∨ mp = 3 ∨ mp = 4 ∨ mp = 5 ∨ mp = 6
          ∨ mp = 7 ∨ mp = 8 ∨ mp = 9 ∨ mp = 10 ∨ mp = 11) as Hcase by lia.
  assert (Hd : (153 * mp + 2) / 5 ≤ doy < (153 * (mp + 1) + 2) / 5)
    by (subst mp; Z.div_mod_to_equations; lia).
  subst d m. clearbody mp.
  repeat destruct Hcase as [Hcase|Hcase]; subst mp;
    unfold days_in_month;
    repeat match goal with
    | |- context [?a <? ?b] =>
        let v := eval vm_compute in (a <? b) in change (a <? b) with v
    | |- context [?a <=? ?b] =>
        let v := eval vm_compute in (a <=? b) in change (a <=? b) with v
    | |- context [?a =? ?b] =>
        let v := eval vm_compute in (a =? b) in change (a =? b) with v
    end; cbv iota; simpl orb; cbv iota;
    (split; [lia|]; split; [reflexivity|];
     split; [intros Hm | intros Hm y']; try discriminate Hm;
     try (destruct (is_leap y) eqn:Hy); try (Z.div_mod_to_equations; lia)).
Qed.

Lemma civil_from_days_valid z :
  1 ≤ month z ≤ 12 ∧ 1 ≤ day z ≤ days_in_month (year z) (month z).
Proof.
  unfold month, day, year, civil_from_days; simpl.
  set (z' := z + 719468). set (era := z' / 146097).
  set (doe := z' - era * 146097).
  assert (Hdoe : 0 ≤ doe < 146097)
    by (subst doe era; Z.div_mod_to_equations; lia).
  destruct (year_of_era doe Hdoe) as (Hyoe & Hdoy & Hleap).
  set (yoe := (doe - doe / 1460 + doe / 36524 - doe / 146096) / 365) in *.
  set (doy := doe - (365 * yoe + yoe / 4 - yoe / 100)) in *.
  destruct (month_of_year doy (yoe + 1) Hdoy Hleap) as (Hm & _ & Hlo & Hhi).
  set (mp := (5 * doy + 2) / 153) in *.
  set (m := if mp <? 10 then mp + 3 else mp - 9) in *.
  split; [done|].
  replace (yoe + era * 400 + (if m <=? 2 then 1 else 0))
    with (yoe + (if m <=? 2 then 1 else 0) + era * 400) by lia.
  rewrite days_in_month_era.
  destruct (m <=? 2) eqn:Hm2; [by apply Hlo | by apply Hhi].
Qed.

Lemma days_from_civil_from_days z :
  days_from_civil (year z) (month z) (day z) = z.
Proof.
  unfold month, day, year, civil_from_days; simpl.
  set (z' := z + 719468). set (era := z' / 146097).
  set (doe := z' - era * 146097).
  assert (Hdoe : 0 ≤ doe < 146097)
    by (subst doe era; Z.div_mod_to_equations; lia).
  destruct (year_of_era doe Hdoe) as (Hyoe & Hdoy & Hleap).
  set (yoe := (doe - doe / 1460 + doe / 36524 - doe / 146096) / 365) in *.
  set (doy := doe - (365 * yoe + yoe / 4 - yoe / 100)) in *.
  destruct (month_of_year doy (yoe + 1) Hdoy Hleap) as (_ & Hmp & _).
  set (mp := (5 * doy + 2) / 153) in *.
  set (m := if mp <? 10 then mp + 3 else mp - 9) in *.
  unfold days_from_civil. rewrite Hmp.
  assert (Hy : (if m <=? 2
                then yoe + era * 400 + (if m <=? 2 then 1 else 0) - 1
                else yoe + era * 400 + (if m <=? 2 then 1 else 0))
               = yoe + era * 400) by (destruct (m <=? 2); lia).
  rewrite Hy.
  assert (He : (yoe + era * 400) / 400 = era)
    by (subst yoe; Z.div_mod_to_equations; lia).
  rewrite He.
  replace (yoe + era * 400 - era * 400) with yoe by lia.
  subst doy doe z'. lia.
Qed.

Lemma new_datetime_of_date (d : date) h :
  0 ≤ h ≤ 23 →
  new_datetime (year d) (month d) (day d) h = Return (d * 86400 + h * 3600).
Proof.
  intros Hh. unfold new_datetime.
  destruct (civil_from_days_valid d) as [Hm Hd].
  rewrite days_from_civil_from_days.
  repeat (rewrite (proj2 (Z.leb_le _ _)) by lia). reflexivity.
Qed.

Lemma new_datetime_bad_hour y m d h :
  ¬ (0 ≤ h ≤ 23) → new_datetime y m d h = Raise ValueError.
Proof.
  intros Hh. unfold new_datetime.
  destruct (0 <=? h) eqn:H0; destruct (h <=? 23) eqn:H23;
    rewrite ?andb_false_r; try reflexivity. lia.
Qed.

(** ** Python values *)

Lemma str_or_custom s b : s ≠ "" → str_or (Some s) b = s.
Proof.
  intros Hs. unfold str_or. destruct (String.eqb_spec s ""); congruence.
Qed.

Lemma truthy_dict_empty : truthy_dict ∅ = false.
Proof. reflexivity. Qed.

Lemma singleton_not_empty (k : Z) (v : string) :
  ({[ k := v ]} : gmap Z string) ≠ ∅.
Proof. apply map_non_empty_singleton. Qed.

Lemma str_in_elem_of x l : str_in x l = true ↔ x ∈ l.
Proof.
  unfold str_in. rewrite existsb_exists, list_elem_of_In. split.
  - intros (y & Hy & Heq). apply String.eqb_eq in Heq. by subst.
  - intros Hx. exists x. split; [done | apply String.eqb_refl].
Qed.

(** ** [_compute_validation_required] *)

Lemma compute_one_type q :
  question_type (compute_validation_required_one q) = question_type q.
Proof. unfold compute_validation_required_one. by case_match. Qed.

Lemma compute_one_flag q :
  validation_required (compute_validation_required_one q)
  = validation_required q && str_in (question_type q) supported_types.
Proof.
  unfold compute_validation_required_one.
  destruct (validation_required q) eqn:Hv;
    destruct (str_in (question_type q) supported_types) eqn:Hs;
    simpl; try done.
Qed.

(** C9. After [_compute_validation_required] has run over a record set,
    every question whose validation-required flag is still [True] has one of
    the kinds [char_box], [numerical_box], [date], [datetime] and
    [multiple_choice], and every question of another kind has the flag
    [False]. *)
Theorem compute_validation_required_supported_only
    (self : list survey_question) (question : survey_question) :
  question ∈ _compute_validation_required self →
  (validation_required question = true →
   question_type question ∈ supported_types)
  ∧ (question_type question ∉ supported_types →
     validation_required question = false).
Proof.
  unfold _compute_validation_required. intros Hq.
  apply list_elem_of_fmap in Hq as (q0 & -> & _).
  rewrite compute_one_flag, compute_one_type. split.
  - intros Hv. apply andb_true_iff in Hv as [_ Hs].
    by apply str_in_elem_of.
  - intros Hn. apply andb_false_iff. right.
    destruct (str_in (question_type q0) supported_types) eqn:Hs; [|done].
    by apply str_in_elem_of in Hs.
Qed.

(** ** [_validate_choice] *)

Section ChoiceProperties.

Variable super_validate_choice :
  survey_question → choice_answer → option string → gmap Z string.

Local Abbreviation validate := (_validate_choice super_validate_choice).

(** Once the parent's check has passed on a multiple-choice question with
    validation switched on, the method is the comparison of lines 98-120. *)
Lemma validate_choice_checked self answer comment :
  super_validate_choice self answer comment = ∅ →
  question_type self = "multiple_choice" →
  validation_required self = true →
  validate self answer comment =
    if (min_value self <=? answer_count answer)
       && (answer_count answer <=? max_value self)
    then ∅
    else {[ id self :=
              str_or (validation_error_msg self)
                (if min_value self =? max_value self
                 then msg_choice_exact (min_value self) (answer_count answer)
                 else msg_choice_between (min_value self) (max_value self)
                        (answer_count answer)) ]}.
Proof.
  intros Hres Hty Hreq. unfold _validate_choice.
  rewrite Hres, Hty, Hreq, truthy_dict_empty. simpl.
  destruct ((min_value self <=? answer_count answer)
            && (answer_count answer <=? max_value self)); simpl; [done|].
  by destruct (min_value self =? max_value self).
Qed.

Lemma answer_count_nonneg answer : 0 ≤ answer_count answer.
Proof. destruct answer; simpl; lia. Qed.

(** C1, as amended. On a multiple-choice question with validation enabled
    and no failure of the parent's check, [_validate_choice] returns the
    empty mapping if and only if the count lies between the effective
    minimum (the configured minimum if it is non-negative, otherwise 0) and
    the effective maximum, which is the configured maximum unless that is
    exactly -1, in which case it is the number of offered choices. *)
Theorem validate_choice_valid_iff self answer comment :
  super_validate_choice self answer comment = ∅ →
  question_type self = "multiple_choice" →
  validation_required self = true →
  validate self answer comment = ∅
  ↔ spec_effective_min self ≤ answer_count answer ≤ max_value self.
Proof.
  intros Hres Hty Hreq.
  rewrite (validate_choice_checked _ _ _ Hres Hty Hreq).
  pose proof (answer_count_nonneg answer) as Hc.
  assert (Hmin : min_value self ≤ answer_count answer
                 ↔ spec_effective_min self ≤ answer_count answer).
  { unfold min_value, spec_effective_min.
    destruct (Z.eqb_spec (validation_min_multiple_choice_option self) (-1));
      destruct (Z.leb_spec 0 (validation_min_multiple_choice_option self));
      lia. }
  destruct (Z.leb_spec (min_value self) (answer_count answer));
    destruct (Z.leb_spec (answer_count answer) (max_value self)); simpl.
  - split; [lia | done].
  - split; [intros H1; by apply singleton_not_empty in H1 | lia].
  - split; [intros H1; by apply singleton_not_empty in H1 | lia].
  - split; [intros H1; by apply singleton_not_empty in H1 | lia].
Qed.


End ChoiceProperties.

(** C1, witness of the amended statement: three selections out of five
    offered, with the default bounds. *)
Lemma validate_choice_valid_iff_witness :
  validate_choice (sample_choice_question (-1) (-1) None)
    (AnswerList [11; 12; 13]) None = ∅
  ↔ spec_effective_min (sample_choice_question (-1) (-1) None)
    ≤ answer_count (AnswerList [11; 12; 13])
    ≤ max_value (sample_choice_question (-1) (-1) None).
Proof.
  apply (validate_choice_valid_iff super_validate_choice_optional
           (sample_choice_question (-1) (-1) None)
           (AnswerList [11; 12; 13]) None); reflexivity.
Defined.

(** C1, as stated, fails: with the maximum configured as -2 the code keeps
    -2 as the bound and rejects the empty answer, although the count 0 lies
    between the effective bounds 0 and 5 of the specification. *)
Lemma validate_choice_negative_max_counterexample :
  let q := sample_choice_question (-1) (-2) None in
  let answer := AnswerList [] in
  super_validate_choice_optional q answer None = ∅
  ∧ question_type q = "multiple_choice"
  ∧ validation_required q = true
  ∧ ¬ (validate_choice q answer None = ∅
       ↔ spec_effective_min q ≤ answer_count answer ≤ spec_effective_max q).
Proof.
  repeat split; try reflexivity.
  intros [_ H].
  assert (Hv : validate_choice (sample_choice_question (-1) (-2) None)
                 (AnswerList []) None
               = {[ 7 := "You need to select between 0 and -2 answers, you chose 0 answer." ]})
    by (vm_compute; reflexivity).
  rewrite Hv in H. eapply singleton_not_empty, H.
  vm_compute. split; discriminate.
Qed.

(** The method on two small inputs. *)
Example choice_default_bounds_empty_answer :
  validate_choice (sample_choice_question (-1) (-1) None) (AnswerList []) None
  = ∅.
Proof. vm_compute. reflexivity. Qed.

Example choice_exact_count_message :
  validate_choice (sample_choice_question 2 2 None) (AnswerList [11]) None
  = {[ 7 := "You need to select 2 answer, you chose 1 answer." ]}.
Proof. vm_compute. reflexivity. Qed.

(** ** The monad *)

Lemma bind_Return {A B} (l : list string) (a : A) (f : A → M B) :
  Run l (Return a) ≫= f = Run (l ++ log (f a)) (result (f a)).
Proof. reflexivity. Qed.

Lemma bind_Raise {A B} (l : list string) (x : exn) (f : A → M B) :
  Run l (Raise x) ≫= f = Run l (Raise x).
Proof. reflexivity. Qed.

Lemma M_eta {A} (m : M A) : Run (log m) (result m) = m.
Proof. by destruct m. Qed.

(** ** Resolution of the bounds (lines 145-201) *)

(** The minimum of a datetime question never raises. *)
Lemma datetime_min_bound_today self date_now diff_hour :
  validation_min_datetime_option self = Some "today" →
  datetime_min_bound self date_now diff_hour
  = Run [] (Return (Some (date_now * 86400 - diff_hour * 3600))).
Proof.
  intros H. unfold datetime_min_bound. rewrite H. simpl.
  rewrite new_datetime_of_date by lia.
  unfold lift. rewrite bind_Return. simpl. do 3 f_equal. lia.
Qed.

Lemma datetime_min_bound_returns self date_now diff_hour :
  ∃ l mn, datetime_min_bound self date_now diff_hour = Run l (Return mn).
Proof.
  unfold datetime_min_bound.
  destruct (truthy_str _); [|by eexists _, _].
  destruct (is_today _); [|by eexists _, _].
  rewrite new_datetime_of_date by lia. by eexists _, _.
Qed.

(** The maximum of a datetime question anchored on today, west of or at
    Greenwich: the start of tomorrow on the user's clock, less a second. *)
Lemma datetime_max_bound_today_west self date_now diff_hour :
  validation_max_datetime_option self = Some "today" →
  -23 ≤ diff_hour ≤ 0 →
  datetime_max_bound self date_now diff_hour
  = Run [] (Return (Some ((date_now + 1) * 86400 - diff_hour * 3600 - 1), 1)).
Proof.
  intros H Hd. unfold datetime_max_bound. rewrite H. simpl.
  rewrite new_datetime_of_date by lia.
  unfold lift. rewrite bind_Return. simpl. do 4 f_equal. lia.
Qed.

(** East of Greenwich the hour handed to the constructor is negative. *)
Lemma datetime_max_bound_today_east self date_now diff_hour :
  validation_max_datetime_option self = Some "today" →
  0 < diff_hour →
  datetime_max_bound self date_now diff_hour = Run [] (Raise ValueError).
Proof.
  intros H Hd. unfold datetime_max_bound. rewrite H. simpl.
  rewrite new_datetime_bad_hour by lia. reflexivity.
Qed.

Lemma date_bounds_today self date_now diff_hour :
  validation_min_date_option self = Some "today" →
  validation_max_date_option self = Some "today" →
  resolve_bounds self false date_now diff_hour
  = Run [] (Return (Bounds (Some date_now) (Some date_now) 0)).
Proof.
  intros Hmin Hmax. unfold resolve_bounds, date_min_bound, date_max_bound.
  rewrite Hmin, Hmax. reflexivity.
Qed.

(** An anchor that is set but is not ["today"] is logged and leaves its side
    without a bound, whatever the explicit bound of that side. *)
Lemma truthy_str_unknown s : s ≠ "" → truthy_str (Some s) = true.
Proof. intros H. simpl. by destruct (String.eqb_spec s ""). Qed.

Lemma is_today_unknown s : s ≠ "today" → is_today (Some s) = false.
Proof. intros H. simpl. by destruct (String.eqb_spec s "today"). Qed.

Lemma datetime_min_bound_unknown self date_now diff_hour s :
  validation_min_datetime_option self = Some s → s ≠ "" → s ≠ "today" →
  datetime_min_bound self date_now diff_hour
  = Run [missing_information "validation_min_datetime_option" s]
      (Return None).
Proof.
  intros H H1 H2. unfold datetime_min_bound.
  rewrite H, truthy_str_unknown, is_today_unknown by done. reflexivity.
Qed.

Lemma datetime_max_bound_unknown self date_now diff_hour s :
  validation_max_datetime_option self = Some s → s ≠ "" → s ≠ "today" →
  datetime_max_bound self date_now diff_hour
  = Run [missing_information "validation_max_datetime_option" s]
      (Return (None, 0)).
Proof.
  intros H H1 H2. unfold datetime_max_bound.
  rewrite H, truthy_str_unknown, is_today_unknown by done. reflexivity.
Qed.

Lemma date_min_bound_unknown self date_now s :
  validation_min_date_option self = Some s → s ≠ "" → s ≠ "today" →
  date_min_bound self date_now
  = Run [missing_information "validation_min_date_option" s] (Return None).
Proof.
  intros H H1 H2. unfold date_min_bound.
  rewrite H, truthy_str_unknown, is_today_unknown by done. reflexivity.
Qed.

Lemma date_max_bound_unknown self date_now s :
  validation_max_date_option self = Some s → s ≠ "" → s ≠ "today" →
  date_max_bound self date_now
  = Run [missing_information "validation_max_date_option" s] (Return None).
Proof.
  intros H H1 H2. unfold date_max_bound.
  rewrite H, truthy_str_unknown, is_today_unknown by done. reflexivity.
Qed.

Lemma date_min_bound_returns self date_now :
  ∃ l mn, date_min_bound self date_now = Run l (Return mn).
Proof.
  unfold date_min_bound.
  destruct (truthy_str _); [|by eexists _, _].
  destruct (is_today _); by eexists _, _.
Qed.

Lemma date_max_bound_returns self date_now :
  ∃ l mx, date_max_bound self date_now = Run l (Return mx).
Proof.
  unfold date_max_bound.
  destruct (truthy_str _); [|by eexists _, _].
  destruct (is_today _); by eexists _, _.
Qed.

Lemma datetime_max_bound_returns self date_now diff_hour :
  (is_today (validation_max_datetime_option self) = true →
   -23 ≤ diff_hour ≤ 0) →
  ∃ l mx, datetime_max_bound self date_now diff_hour = Run l (Return mx).
Proof.
  intros Hd. unfold datetime_max_bound.
  destruct (truthy_str _); [|by eexists _, _].
  destruct (is_today _); [|by eexists _, _].
  rewrite new_datetime_of_date by lia. by eexists _, _.
Qed.

(** A date question always gets its bounds. *)
Lemma resolve_bounds_date_returns self date_now diff_hour :
  ∃ l b, resolve_bounds self false date_now diff_hour = Run l (Return b).
Proof.
  unfold resolve_bounds.
  destruct (date_min_bound_returns self date_now) as (l1 & mn & ->).
  destruct (date_max_bound_returns self date_now) as (l2 & mx & ->).
  by eexists _, _.
Qed.

(** A datetime question gets them unless its maximum is anchored on today
    and the offset is not between -23 and 0 hours. *)
Lemma resolve_bounds_datetime_returns self date_now diff_hour :
  (is_today (validation_max_datetime_option self) = true →
   -23 ≤ diff_hour ≤ 0) →
  ∃ l b, resolve_bounds self true date_now diff_hour = Run l (Return b).
Proof.
  intros Hd. unfold resolve_bounds.
  destruct (datetime_min_bound_returns self date_now diff_hour)
    as (l1 & mn & ->).
  destruct (datetime_max_bound_returns self date_now diff_hour Hd)
    as (l2 & mx & ->).
  by eexists _, _.
Qed.

(** ** The comparison (lines 204-247) *)

Lemma check_range_parsed self is_datetime user_timezone b a :
  check_range self is_datetime user_timezone b (Some a) =
    match min_date b, max_date b with
    | Some mn, Some mx =>
        if (mn <=? a) && (a <=? mx) then Return ∅
        else Return {[ id self :=
               str_or (validation_error_msg self)
                 (msg_between (date_min_show is_datetime user_timezone mn)
                    (date_max_show is_datetime user_timezone mx
                       (nb_second_delay b))) ]}
    | Some mn, None =>
        if mn <=? a then Return ∅
        else Return {[ id self :=
               str_or (validation_error_msg self)
                 (msg_after (date_min_show is_datetime user_timezone mn)) ]}
    | None, Some mx =>
        if a <=? mx then Return ∅
        else Return {[ id self :=
               str_or (validation_error_msg self)
                 (msg_before
                    (date_max_show is_datetime user_timezone mx 1)) ]}
    | None, None => Return ∅
    end.
Proof.
  unfold check_range, between, le_answer, answer_le.
  destruct (min_date b) as [mn|], (max_date b) as [mx|];
    try reflexivity.
  destruct (mn <=? a) eqn:H1; simpl; [|reflexivity].
  destruct (a <=? mx) eqn:H2; reflexivity.
Qed.

Lemma Return_singleton_not_valid self msg :
  ¬ is_valid (Return {[ id self := msg ]}).
Proof.
  unfold is_valid. intros H.
  assert (H' : ({[ id self := msg ]} : gmap Z string) = ∅) by congruence.
  by apply singleton_not_empty in H'.
Qed.


(** ** [_validate_date] *)

Section DateProperties.

Variable Date_from_string : string → outcome (option date).
Variable Datetime_from_string : string → outcome (option datetime).
Variable timezone : string → tzinfo.

Local Abbreviation validate :=
  (_validate_date Date_from_string Datetime_from_string timezone).
Local Abbreviation is_datetime self :=
  (String.eqb (question_type self) "datetime").
(** The parser the method picks at lines 127-131. *)
Local Abbreviation parse self answer :=
  (if is_datetime self then Datetime_from_string answer
   else Date_from_string answer).
Local Abbreviation user_timezone e := (timezone (str_or (user_tz e) "UTC")).
Local Abbreviation date_now e := (aware_date (now_utc e) (user_timezone e)).
Local Abbreviation diff_hour e :=
  (int_hours (utcoffset_seconds (now_utc e) (user_timezone e))).

(** C4. An answer on which the parser of the question's kind raises
    [ValueError] is answered at once with the single message
    "This is not a date" under the question's id, nothing being logged,
    whatever the validation-required flag and the bounds of the question. *)
Theorem validate_date_not_a_date self answer e :
  parse self answer = Raise ValueError →
  _validate_date Date_from_string Datetime_from_string timezone self answer e
  = Run [] (Return {[ id self := "This is not a date" ]}).
Proof.
  intros Hparse. unfold _validate_date. rewrite Hparse. reflexivity.
Qed.

(** Without validation a parsed answer is accepted. *)
Lemma validate_date_not_required self answer e v :
  parse self answer = Return v →
  validation_required self = false →
  validate self answer e = Run [] (Return ∅).
Proof.
  intros Hparse Hreq. unfold _validate_date. rewrite Hparse, Hreq.
  reflexivity.
Qed.

(** With validation, the method is the resolution of the bounds followed by
    the comparison. *)
Lemma validate_date_resolved self answer e v l b :
  parse self answer = Return v →
  validation_required self = true →
  resolve_bounds self (is_datetime self) (date_now e) (diff_hour e)
  = Run l (Return b) →
  validate self answer e
  = Run l (check_range self (is_datetime self) (user_timezone e) b v).
Proof.
  intros Hparse Hreq Hres. unfold _validate_date.
  rewrite Hparse, Hreq. simpl negb. cbv iota. rewrite Hres.
  unfold lift. rewrite bind_Return. simpl. by rewrite app_nil_r.
Qed.

Lemma validate_date_unresolved self answer e v l x :
  parse self answer = Return v →
  validation_required self = true →
  resolve_bounds self (is_datetime self) (date_now e) (diff_hour e)
  = Run l (Raise x) →
  validate self answer e = Run l (Raise x).
Proof.
  intros Hparse Hreq Hres. unfold _validate_date.
  rewrite Hparse, Hreq. simpl negb. cbv iota. by rewrite Hres.
Qed.

(** C2, the failing path. On a datetime question with validation enabled
    and the maximum anchored on today, every parsed answer makes the method
    raise [ValueError] as soon as the user's zone is an hour or more east of
    Greenwich: line 168 hands the negated offset to the constructor as its
    hour. *)
Theorem validate_date_max_today_east_raises self answer e v :
  question_type self = "datetime" →
  Datetime_from_string answer = Return v →
  validation_required self = true →
  validation_max_datetime_option self = Some "today" →
  0 < diff_hour e →
  result (_validate_date Date_from_string Datetime_from_string timezone
            self answer e)
  = Raise ValueError.
Proof.
  intros Hty Hparse Hreq Hmax Hoff.
  destruct (datetime_min_bound_returns self (date_now e) (diff_hour e))
    as (l & mn & Hmin).
  rewrite (validate_date_unresolved self answer e v l ValueError); try done.
  - by rewrite Hty.
  - rewrite Hty. simpl. unfold resolve_bounds. rewrite Hmin.
    rewrite (datetime_max_bound_today_east _ _ _ Hmax Hoff).
    rewrite bind_Return, bind_Raise. simpl. by rewrite app_nil_r.
Qed.

(** Away from that path the method returns, for every answer that parses or
    fails to parse: the empty mapping or one message under the question's
    id. *)
Lemma validate_date_returns_elsewhere self answer e :
  (parse self answer = Raise ValueError
   ∨ ∃ a, parse self answer = Return (Some a)) →
  (is_datetime self = true →
   is_today (validation_max_datetime_option self) = true →
   -23 ≤ diff_hour e ≤ 0) →
  is_valid (result (validate self answer e))
  ∨ is_error self (result (validate self answer e)).
Proof.
  intros [Hparse | [a Hparse]] Hwest.
  - right. unfold _validate_date. rewrite Hparse. by eexists.
  - destruct (validation_required self) eqn:Hreq.
    2: { left. by rewrite (validate_date_not_required _ _ _ _ Hparse Hreq). }
    assert (∃ l b, resolve_bounds self (is_datetime self) (date_now e)
                     (diff_hour e) = Run l (Return b)) as (l & b & Hres).
    { destruct (is_datetime self) eqn:Hdt.
      - apply resolve_bounds_datetime_returns. by apply Hwest.
      - apply resolve_bounds_date_returns. }
    rewrite (validate_date_resolved _ _ _ _ _ _ Hparse Hreq Hres).
    simpl. rewrite check_range_parsed.
    destruct (min_date b), (max_date b); repeat case_match;
      (by left) || (right; by eexists).
Qed.

(** An unknown anchor on one side: the line is logged and the result is the
    comparison with that side absent. Here for the minimum of a date
    question and for the maximum of a datetime question. *)
Lemma validate_date_unknown_min_date_anchor self answer e a s :
  question_type self ≠ "datetime" →
  Date_from_string answer = Return (Some a) →
  validation_required self = true →
  validation_min_date_option self = Some s → s ≠ "" → s ≠ "today" →
  ∃ l mx,
    date_max_bound self (date_now e) = Run l (Return mx)
    ∧ validate self answer e
      = Run (missing_information "validation_min_date_option" s :: l)
          (check_range self false (user_timezone e) (Bounds None mx 0)
             (Some a)).
Proof.
  intros Hty Hparse Hreq Hopt Hs1 Hs2. apply String.eqb_neq in Hty.
  destruct (date_max_bound_returns self (date_now e)) as (l & mx & Hmx).
  exists l, mx. split; [done|].
  rewrite (validate_date_resolved self answer e (Some a)
             (missing_information "validation_min_date_option" s :: l)
             (Bounds None mx 0)); rewrite ?Hty; try done.
  unfold resolve_bounds.
  rewrite (date_min_bound_unknown _ _ _ Hopt Hs1 Hs2), Hmx.
  rewrite !bind_Return. simpl. by rewrite app_nil_r.
Qed.

Lemma validate_date_unknown_max_datetime_anchor self answer e a s :
  question_type self = "datetime" →
  Datetime_from_string answer = Return (Some a) →
  validation_required self = true →
  validation_max_datetime_option self = Some s → s ≠ "" → s ≠ "today" →
  ∃ l mn,
    datetime_min_bound self (date_now e) (diff_hour e) = Run l (Return mn)
    ∧ validate self answer e
      = Run (l ++ [missing_information "validation_max_datetime_option" s])
          (check_range self true (user_timezone e) (Bounds mn None 0)
             (Some a)).
Proof.
  intros Hty Hparse Hreq Hopt Hs1 Hs2.
  destruct (datetime_min_bound_returns self (date_now e) (diff_hour e))
    as (l & mn & Hmn).
  exists l, mn. split; [done|].
  rewrite (validate_date_resolved self answer e (Some a)
             (l ++ [missing_information "validation_max_datetime_option" s])
             (Bounds mn None 0)); rewrite ?Hty; try done.
  unfold resolve_bounds. simpl.
  rewrite Hmn, (datetime_max_bound_unknown _ _ _ _ Hopt Hs1 Hs2).
  rewrite !bind_Return. reflexivity.
Qed.


(** An answer outside the bounds of a question with a custom message gets
    that message alone. *)
Lemma validate_date_custom self answer e a l b msg :
  parse self answer = Return (Some a) →
  validation_required self = true →
  resolve_bounds self (is_datetime self) (date_now e) (diff_hour e)
  = Run l (Return b) →
  validation_error_msg self = Some msg → msg ≠ "" →
  ¬ is_valid (result (validate self answer e)) →
  validate self answer e = Run l (Return {[ id self := msg ]}).
Proof.
  intros Hparse Hreq Hres Hmsg Hne.
  rewrite (validate_date_resolved _ _ _ _ _ _ Hparse Hreq Hres).
  simpl. rewrite check_range_parsed, Hmsg. intros Hinv.
  destruct (min_date b) as [mn|], (max_date b) as [mx|];
    repeat case_match; try (by destruct Hinv);
    by rewrite str_or_custom.
Qed.

(** C10. The method never checks that the kind is date or datetime: on a
    question of any kind other than ["datetime"] it takes the date branch.
    The date parser decides whether the answer is a date; with validation
    on, the bounds are those of the date settings (lines 180-201), the
    parsed answer is compared with them as a date, and the message shows
    the minimum less a day and the maximum plus a day as dates, provided the
    bounds can be shown; so the method gives exactly what it gives on the
    same question declared of kind ["date"], and the datetime parser plays
    no part in it. *)
Theorem validate_date_other_kinds_as_date self answer e :
  question_type self ≠ "datetime" →
  (Date_from_string answer = Raise ValueError →
   _validate_date Date_from_string Datetime_from_string timezone
     self answer e
   = Run [] (Return {[ id self := "This is not a date" ]}))
  ∧ (∀ a, Date_from_string answer = Return (Some a) →
       validation_required self = true →
       ∃ l1 l2 mn mx,
         date_min_bound self (date_now e) = Run l1 (Return mn)
         ∧ date_max_bound self (date_now e) = Run l2 (Return mx)
         ∧ (can_show false (user_timezone e) (Bounds mn mx 0) →
            _validate_date Date_from_string Datetime_from_string timezone
              self answer e
            = Run (l1 ++ l2)
                (Return
                   match mn, mx with
                   | Some mn, Some mx =>
                       if (mn <=? a) && (a <=? mx) then ∅
                       else {[ id self :=
                                 str_or (validation_error_msg self)
                                   (msg_between (str_date (mn - 1))
                                      (str_date (mx + 1))) ]}
                   | Some mn, None =>
                       if mn <=? a then ∅
                       else {[ id self :=
                                 str_or (validation_error_msg self)
                                   (msg_after (str_date (mn - 1))) ]}
                   | None, Some mx =>
                       if a <=? mx then ∅
                       else {[ id self :=
                                 str_or (validation_error_msg self)
                                   (msg_before (str_date (mx + 1))) ]}
                   | None, None => ∅
                   end)))
  ∧ _validate_date Date_from_string Datetime_from_string timezone
      self answer e
    = _validate_date Date_from_string Datetime_from_string timezone
        (set_question_type self "date") answer e
  ∧ ∀ Datetime_from_string',
      _validate_date Date_from_string Datetime_from_string' timezone
        self answer e
      = _validate_date Date_from_string Datetime_from_string timezone
          self answer e.
Proof.
  intros Hty. apply String.eqb_neq in Hty. split_and!.
  - intros Hparse. unfold _validate_date. rewrite Hty, Hparse. reflexivity.
  - intros a Hparse Hreq.
    destruct (date_min_bound_returns self (date_now e)) as (l1 & mn & Hmn).
    destruct (date_max_bound_returns self (date_now e)) as (l2 & mx & Hmx).
    exists l1, l2, mn, mx. split_and!; [done | done |]. intros _.
    rewrite (validate_date_resolved self answer e (Some a) (l1 ++ l2)
               (Bounds mn mx 0)); rewrite ?Hty; try done.
    + rewrite check_range_parsed. simpl.
      destruct mn as [mn|], mx as [mx|]; try reflexivity.
      * by destruct ((mn <=? a) && (a <=? mx)).
      * by destruct (mn <=? a).
      * by destruct (a <=? mx).
    + unfold resolve_bounds. rewrite Hmn, Hmx, !bind_Return. simpl.
      by rewrite app_nil_r.
  - unfold _validate_date. simpl. rewrite Hty. reflexivity.
  - intros Datetime_from_string'. unfold _validate_date. simpl.
    rewrite Hty. reflexivity.
Qed.

End DateProperties.

(** C4, witness: the answer "not-a-date" on a date question, with the
    validation switched off. *)
Lemma validate_date_not_a_date_witness :
  validate_date (date_question "date" false None None None None None
                   None None None None) "not-a-date" env_utc
  = Run [] (Return {[ 42 := "This is not a date" ]}).
Proof.
  apply (validate_date_not_a_date ref_Date_from_string
           ref_Datetime_from_string ref_timezone
           (date_question "date" false None None None None None
              None None None None) "not-a-date" env_utc).
  vm_compute. reflexivity.
Defined.

Example not_a_date_with_validation :
  validate_date (today_only_question None) "not-a-date" env_utc
  = Run [] (Return {[ 42 := "This is not a date" ]}).
Proof. vm_compute. reflexivity. Qed.

(** C2, witness: a user in Lagos (UTC+1) answering a question open for the
    whole of today. *)
Lemma validate_date_max_today_east_raises_witness :
  result (validate_date today_window_question "2024-01-15 12:30:00" env_lagos)
  = Raise ValueError.
Proof.
  apply (validate_date_max_today_east_raises ref_Date_from_string
           ref_Datetime_from_string ref_timezone today_window_question
           "2024-01-15 12:30:00" env_lagos (Some 1705321800));
    vm_compute; reflexivity.
Defined.

(** The same question answered from Bogota (UTC-5) and from UTC. *)
Example today_window_bogota_inside :
  validate_date today_window_question "2024-01-15 12:30:00" env_bogota
  = Run [] (Return ∅).
Proof. vm_compute. reflexivity. Qed.

Example today_window_bogota_before :
  validate_date today_window_question "2024-01-15 04:59:59" env_bogota
  = Run [] (Return {[ 42 :=
      "The date needs to be between 2024-01-15 00:00:00 and 2024-01-16 00:00:00." ]}).
Proof. vm_compute. reflexivity. Qed.

Example today_window_utc_last_second :
  validate_date today_window_question "2024-01-15 23:59:59" env_utc
  = Run [] (Return ∅).
Proof. vm_compute. reflexivity. Qed.

(** C3, the failing input. For a user in Tokyo (UTC+9) at 2024-01-15 12:00
    UTC, the minimum of a question anchored on today is local midnight as a
    UTC instant, but the maximum is not produced: the constructor is called
    with hour -9 and raises [ValueError], and so does the whole method. *)
Theorem today_window_tokyo_has_no_maximum :
  datetime_min_bound today_window_question 19737 9
  = Run [] (Return (Some (19737 * 86400 - 9 * 3600)))
  ∧ datetime_max_bound today_window_question 19737 9
    = Run [] (Raise ValueError)
  ∧ validate_date today_window_question "2024-01-15 12:30:00" env_tokyo
    = Run [] (Raise ValueError).
Proof. vm_compute. repeat split; reflexivity. Qed.

(** C5, the failing input. With an unknown minimum anchor the defect is
    logged and the minimum dropped, but with the maximum anchored on today
    and a user in Kolkata (UTC+5:30) the method then raises [ValueError]. *)
Theorem unknown_anchor_kolkata_raises :
  validate_date unknown_min_anchor_question "2024-01-15 12:30:00" env_kolkata
  = Run ["Missing information about validation_min_datetime_option: tomorrow"]
      (Raise ValueError).
Proof. vm_compute. reflexivity. Qed.

(** West of Greenwich the same question is decided by its maximum alone. *)
Example unknown_anchor_bogota_max_only :
  validate_date unknown_min_anchor_question "2024-01-10 00:00:00" env_bogota
  = Run ["Missing information about validation_min_datetime_option: tomorrow"]
      (Return ∅).
Proof. vm_compute. reflexivity. Qed.


Example today_only_yesterday :
  validate_date (today_only_question None) "2024-01-14" env_utc
  = Run [] (Return {[ 42 :=
      "The date needs to be between 2024-01-14 and 2024-01-16." ]}).
Proof. vm_compute. reflexivity. Qed.

(** C10, witness: a free-text question with the date settings of a
    question open today only, answered with something that is not a date
    and with yesterday. *)
Lemma validate_date_other_kinds_as_date_witness :
  validate_date char_box_question "not-a-date" env_utc
  = Run [] (Return {[ 42 := "This is not a date" ]})
  ∧ validate_date char_box_question "2024-01-14" env_utc
    = Run [] (Return {[ 42 :=
        "The date needs to be between 2024-01-14 and 2024-01-16." ]}).
Proof.
  split.
  - apply (proj1 (validate_date_other_kinds_as_date ref_Date_from_string
                    ref_Datetime_from_string ref_timezone char_box_question
                    "not-a-date" env_utc ltac:(discriminate))).
    reflexivity.
  - destruct (validate_date_other_kinds_as_date ref_Date_from_string
                ref_Datetime_from_string ref_timezone char_box_question
                "2024-01-14" env_utc) as (_ & Hbounds & _);
      [discriminate|].
    destruct (Hbounds 19736 eq_refl eq_refl)
      as (l1 & l2 & mn & mx & Hmn & Hmx & Hshown).
    vm_compute in Hmn, Hmx.
    injection Hmn as <- <-. injection Hmx as <- <-.
    unfold validate_date. rewrite Hshown; [reflexivity|].
    vm_compute. repeat split; intros H; discriminate H.
Defined.

(** C9, witness: a matrix question and a date question, both flagged. *)
Lemma compute_validation_required_supported_only_witness :
  let matrix := date_question "matrix" true None None None None None
                  None None None None in
  let q := set_validation_required matrix false in
  (validation_required q = true → question_type q ∈ supported_types)
  ∧ (question_type q ∉ supported_types → validation_required q = false).
Proof.
  apply (compute_validation_required_supported_only
           [date_question "matrix" true None None None None None
              None None None None;
            today_only_question None]).
  vm_compute. apply list_elem_of_here.
Defined.

(** ** The displayed bounds (lines 205-216, 223-227, 233-239) *)

(** A date bound is shown a day outside the bound. *)
Lemma date_shows tz mn mx delay :
  date_min_show false tz mn = str_date (mn - 1)
  ∧ date_max_show false tz mx delay = str_date (mx + 1).
Proof. split; reflexivity. Qed.

(** With both bounds, the maximum of a datetime question is shown with the
    delay of the resolution added back. *)
Lemma check_range_between_message self tz b mn mx a :
  min_date b = Some mn → max_date b = Some mx → ¬ (mn ≤ a ≤ mx) →
  validation_error_msg self = None →
  check_range self true tz b (Some a)
  = Return {[ id self :=
      msg_between (strftime (astimezone mn tz))
        (strftime (astimezone (mx + nb_second_delay b) tz)) ]}.
Proof.
  intros Hmn Hmx Hout Hmsg. rewrite check_range_parsed, Hmn, Hmx, Hmsg.
  destruct (Z.leb_spec mn a), (Z.leb_spec a mx); simpl; try done. lia.
Qed.

(** With the maximum alone, it is shown a second later whatever the delay
    of the resolution was (line 236). *)
Lemma check_range_before_message self tz b mx a :
  min_date b = None → max_date b = Some mx → mx < a →
  validation_error_msg self = None →
  check_range self true tz b (Some a)
  = Return {[ id self := msg_before (strftime (astimezone (mx + 1) tz)) ]}.
Proof.
  intros Hmn Hmx Hout Hmsg. rewrite check_range_parsed, Hmn, Hmx, Hmsg.
  destruct (Z.leb_spec a mx); simpl; try done. lia.
Qed.

(** C7, the failing input. A datetime question with no minimum and the
    explicit maximum 2024-01-01 00:00:00 resolves with a delay of zero, yet
    an answer after the maximum is told "before 2024-01-01 00:00:01". *)
Theorem closing_question_shows_extra_second :
  resolve_bounds closing_question true 19737 0
  = Run [] (Return (Bounds None (Some (19723 * 86400)) 0))
  ∧ validate_date closing_question "2024-01-14 13:00:00" env_utc
    = Run [] (Return {[ 42 :=
        "The date needs to be before 2024-01-01 00:00:01." ]}).
Proof. vm_compute. split; reflexivity. Qed.

(** ** The custom message *)

Lemma check_range_custom self is_datetime tz b v msg m :
  validation_error_msg self = Some msg → msg ≠ "" →
  check_range self is_datetime tz b v = Return m → m ≠ ∅ →
  m = {[ id self := msg ]}.
Proof.
  intros Hmsg Hne. unfold check_range, between, le_answer, answer_le.
  cbv zeta beta. rewrite Hmsg.
  destruct (min_date b) as [mn|], (max_date b) as [mx|], v as [a|];
    rewrite ?str_or_custom by done;
    repeat case_match; congruence.
Qed.

(** On a question with a custom message, a non-empty mapping that comes
    back once the parent's check has passed, or for an answer that parsed,
    holds that message and nothing else. *)
Lemma returned_message_is_custom (self : survey_question) msg :
  validation_error_msg self = Some msg → msg ≠ "" →
  (∀ super_validate_choice answer comment,
     super_validate_choice self answer comment = ∅ →
     _validate_choice super_validate_choice self answer comment ≠ ∅ →
     _validate_choice super_validate_choice self answer comment
     = {[ id self := msg ]})
  ∧ (∀ (Date_from_string : string → outcome (option date))
       (Datetime_from_string : string → outcome (option datetime))
       timezone answer e v m,
       (if String.eqb (question_type self) "datetime"
        then Datetime_from_string answer else Date_from_string answer)
       = Return v →
       result (_validate_date Date_from_string Datetime_from_string timezone
                 self answer e) = Return m →
       m ≠ ∅ →
       m = {[ id self := msg ]}).
Proof.
  intros Hmsg Hne. split.
  - intros super answer comment Hres. unfold _validate_choice.
    rewrite Hres, truthy_dict_empty, Hmsg, !str_or_custom by done.
    repeat case_match; done.
  - intros Dfs DTfs tz answer e v m Hparse. unfold _validate_date.
    cbv zeta. rewrite Hparse.
    destruct (validation_required self); simpl negb; cbv iota.
    + destruct (resolve_bounds _ _ _ _) as [l [b|x]];
        unfold lift; rewrite ?bind_Return, ?bind_Raise; simpl; [|done].
      intros Hm Hnon. by eapply check_range_custom.
    + simpl. congruence.
Qed.



Example today_only_yesterday_custom :
  validate_date (today_only_question (Some "Today only.")) "2024-01-14"
    env_utc
  = Run [] (Return {[ 42 := "Today only." ]}).
Proof. vm_compute. reflexivity. Qed.

(** * Further properties *)

(** ** [_compute_validation_required] (lines 65-75) *)

Lemma compute_one_cases q :
  (validation_required q = true
   ∧ str_in (question_type q) supported_types = true
   ∧ compute_validation_required_one q = q)
  ∨ ((validation_required q = false
      ∨ str_in (question_type q) supported_types = false)
     ∧ compute_validation_required_one q = set_validation_required q false).
Proof.
  unfold compute_validation_required_one.
  destruct (validation_required q) eqn:Hv;
    destruct (str_in (question_type q) supported_types) eqn:Hs;
    cbn [negb orb]; auto.
Qed.

Lemma compute_one_idempotent q :
  compute_validation_required_one (compute_validation_required_one q)
  = compute_validation_required_one q.
Proof.
  destruct (compute_one_cases q) as [(_ & _ & H) | [_ ->]];
    [by rewrite !H|].
  destruct (compute_one_cases (set_validation_required q false))
    as [(H & _) | [_ ->]]; [discriminate H | reflexivity].
Qed.

(** X1. Running [_compute_validation_required] a second time changes
    nothing. *)
Theorem compute_validation_required_idempotent
    (self : list survey_question) :
  _compute_validation_required (_compute_validation_required self)
  = _compute_validation_required self.
Proof.
  unfold _compute_validation_required. induction self as [|q self IH].
  - reflexivity.
  - simpl. by rewrite compute_one_idempotent, IH.
Qed.

Lemma set_validation_required_same q :
  set_validation_required q (validation_required q) = q.
Proof. by destruct q. Qed.

(** X2. The method keeps the number of records and, record by record, only
    ever clears the flag: the record it leaves differs from the one it
    found at most in the flag, and a flag that is set afterwards was set
    before. *)
Theorem compute_validation_required_only_clears
    (self : list survey_question) (i : nat) (q : survey_question) :
  self !! i = Some q →
  length (_compute_validation_required self) = length self
  ∧ ∃ q', _compute_validation_required self !! i = Some q'
          ∧ set_validation_required q' (validation_required q) = q
          ∧ (validation_required q' = true → validation_required q = true).
Proof.
  intros Hq. unfold _compute_validation_required. split.
  - apply length_map.
  - exists (compute_validation_required_one q).
    change (map compute_validation_required_one self)
      with (compute_validation_required_one <$> self).
    rewrite list_lookup_fmap, Hq. split; [reflexivity|].
    destruct (compute_one_cases q) as [(Hv & _ & ->) | [_ ->]].
    + split; [apply set_validation_required_same | done].
    + split; [by destruct q | discriminate].
Qed.

(** X2, witness: the matrix question of the sample record set. *)
Lemma compute_validation_required_only_clears_witness :
  length (_compute_validation_required mixed_record_set)
  = length mixed_record_set
  ∧ ∃ q', _compute_validation_required mixed_record_set !! 0%nat = Some q'
          ∧ set_validation_required q' true
            = date_question "matrix" true None None None (Some "today")
                (Some "today") None None None None
          ∧ (validation_required q' = true → true = true).
Proof.
  apply (compute_validation_required_only_clears mixed_record_set 0
           (date_question "matrix" true None None None (Some "today")
              (Some "today") None None None None)).
  reflexivity.
Defined.

Lemma compute_one_fixed q :
  compute_validation_required_one q = q
  ↔ (validation_required q = true → question_type q ∈ supported_types).
Proof.
  rewrite <- str_in_elem_of.
  destruct (compute_one_cases q) as [(Hv & Hs & ->) | [Hor ->]]; [done|].
  split.
  - intros H Hv. rewrite <- H in Hv. discriminate Hv.
  - intros H. destruct Hor as [Hv | Hs].
    + rewrite <- Hv. apply set_validation_required_same.
    + destruct (validation_required q) eqn:Hv.
      * specialize (H eq_refl). congruence.
      * rewrite <- Hv. apply set_validation_required_same.
Qed.

(** X3. The record sets the method leaves unchanged are exactly those in
    which every flagged question has one of the five supported kinds. *)
Theorem compute_validation_required_fixed_point
    (self : list survey_question) :
  _compute_validation_required self = self
  ↔ ∀ q, q ∈ self →
      validation_required q = true → question_type q ∈ supported_types.
Proof.
  unfold _compute_validation_required. induction self as [|q0 self IH].
  - split; [|done]. intros _ q Hq. by apply elem_of_nil in Hq.
  - simpl. split.
    + intros H. injection H as H0 Hrest. intros q Hq.
      apply elem_of_cons in Hq as [->|Hq].
      * by apply compute_one_fixed.
      * by apply IH.
    + intros H. f_equal.
      * apply compute_one_fixed, H, list_elem_of_here.
      * apply IH. intros q Hq. apply H. by apply list_elem_of_further.
Qed.

(** ** [_validate_choice] (lines 77-120) *)

Section ChoiceFurther.

Variable super_validate_choice :
  survey_question → choice_answer → option string → gmap Z string.

(** X4. The method departs from the answer of the parent class only to
    report a count: whenever its result is not the parent's, the parent had
    found nothing, the question is a multiple-choice one with validation
    on, the count is outside the bounds, and the result is a single message
    under the question's id. A failure of the parent, another kind or a
    cleared flag therefore pass the parent's result through untouched. *)
Theorem validate_choice_differs_only_on_count self answer comment :
  _validate_choice super_validate_choice self answer comment
  ≠ super_validate_choice self answer comment →
  super_validate_choice self answer comment = ∅
  ∧ question_type self = "multiple_choice"
  ∧ validation_required self = true
  ∧ ¬ (min_value self ≤ answer_count answer ≤ max_value self)
  ∧ ∃ msg, _validate_choice super_validate_choice self answer comment
           = {[ id self := msg ]}.
Proof.
  unfold _validate_choice, truthy_dict.
  destruct (decide (super_validate_choice self answer comment = ∅))
    as [Hres|Hres].
  2: { rewrite bool_decide_eq_false_2 by done. simpl. done. }
  rewrite bool_decide_eq_true_2 by done. cbn [negb orb].
  destruct (String.eqb_spec (question_type self) "multiple_choice")
    as [Hty|Hty]; cbn [negb orb]; [|done].
  destruct (validation_required self) eqn:Hreq; cbn [negb orb]; [|done].
  destruct (Z.leb_spec (min_value self) (answer_count answer));
    destruct (Z.leb_spec (answer_count answer) (max_value self));
    cbn [negb andb]; rewrite ?Hres; try done.
  all: intros _; split_and!; try done; try lia.
  all: destruct (min_value self =? max_value self); by eexists.
Qed.

(** X5. With both bounds left at the fields' default -1, an answer passes
    exactly when it selects no more than the offered choices: the empty
    list always passes, and so does a scalar answer as soon as one choice
    is offered. *)
Theorem validate_choice_default_bounds self answer comment :
  super_validate_choice self answer comment = ∅ →
  question_type self = "multiple_choice" →
  validation_required self = true →
  validation_min_multiple_choice_option self = -1 →
  validation_max_multiple_choice_option self = -1 →
  _validate_choice super_validate_choice self answer comment = ∅
  ↔ answer_count answer ≤ Z.of_nat (length (suggested_answer_ids self)).
Proof.
  intros Hres Hty Hreq Hmin Hmax.
  rewrite (validate_choice_checked _ _ _ _ Hres Hty Hreq).
  unfold min_value, max_value. rewrite Hmin, Hmax. cbn [Z.eqb Pos.eqb].
  pose proof (answer_count_nonneg answer) as Hc.
  destruct (Z.leb_spec 0 (answer_count answer)); [|lia].
  destruct (Z.leb_spec (answer_count answer)
              (Z.of_nat (length (suggested_answer_ids self))));
    cbn [andb]; split; try done; lia.
Qed.

(** X6. Bounds that no count can meet, a maximum below the minimum or
    below zero, make the method reject every answer, the empty one
    included. *)
Theorem validate_choice_unmeetable_bounds self answer comment :
  super_validate_choice self answer comment = ∅ →
  question_type self = "multiple_choice" →
  validation_required self = true →
  max_value self < min_value self ∨ max_value self < 0 →
  ∃ msg, _validate_choice super_validate_choice self answer comment
         = {[ id self := msg ]}.
Proof.
  intros Hres Hty Hreq Hbad.
  rewrite (validate_choice_checked _ _ _ _ Hres Hty Hreq).
  pose proof (answer_count_nonneg answer) as Hc.
  destruct (Z.leb_spec (min_value self) (answer_count answer));
    destruct (Z.leb_spec (answer_count answer) (max_value self));
    cbn [andb]; try (by eexists). lia.
Qed.

(** A scalar answer is counted as one selection whatever it holds: once
    the parent accepts both, the method answers a scalar as it answers a
    list of one id. *)
Lemma validate_choice_scalar_as_singleton self s i comment :
  super_validate_choice self (AnswerStr s) comment = ∅ →
  super_validate_choice self (AnswerList [i]) comment = ∅ →
  _validate_choice super_validate_choice self (AnswerStr s) comment
  = _validate_choice super_validate_choice self (AnswerList [i]) comment.
Proof.
  intros Hs Hl. unfold _validate_choice. rewrite Hs, Hl. reflexivity.
Qed.

End ChoiceFurther.

(** X4, witness: one choice where two are required. *)
Lemma validate_choice_differs_only_on_count_witness :
  super_validate_choice_optional (sample_choice_question 2 2 None)
    (AnswerList [11]) None = ∅
  ∧ question_type (sample_choice_question 2 2 None) = "multiple_choice"
  ∧ validation_required (sample_choice_question 2 2 None) = true
  ∧ ¬ (min_value (sample_choice_question 2 2 None)
       ≤ answer_count (AnswerList [11])
       ≤ max_value (sample_choice_question 2 2 None))
  ∧ ∃ msg, validate_choice (sample_choice_question 2 2 None)
             (AnswerList [11]) None
           = {[ id (sample_choice_question 2 2 None) := msg ]}.
Proof.
  apply (validate_choice_differs_only_on_count super_validate_choice_optional
           (sample_choice_question 2 2 None) (AnswerList [11]) None).
  vm_compute. discriminate.
Defined.

(** A failure of the parent class comes back as it is. *)
Example choice_parent_failure_kept :
  _validate_choice super_validate_choice_mandatory
    (sample_choice_question 2 2 None) (AnswerList []) None
  = {[ 7 := "This question requires an answer." ]}.
Proof. vm_compute. reflexivity. Qed.

(** X5, witness: the empty answer on five offered choices. *)
Lemma validate_choice_default_bounds_witness :
  validate_choice (sample_choice_question (-1) (-1) None) (AnswerList []) None
  = ∅
  ↔ answer_count (AnswerList [])
    ≤ Z.of_nat (length (suggested_answer_ids
                          (sample_choice_question (-1) (-1) None))).
Proof.
  apply (validate_choice_default_bounds super_validate_choice_optional
           (sample_choice_question (-1) (-1) None) (AnswerList []) None);
    reflexivity.
Defined.

(** X6, witness: a minimum of three with a maximum of two. *)
Lemma validate_choice_unmeetable_bounds_witness :
  ∃ msg, validate_choice (sample_choice_question 3 2 None)
           (AnswerList [11; 12]) None
         = {[ id (sample_choice_question 3 2 None) := msg ]}.
Proof.
  apply (validate_choice_unmeetable_bounds super_validate_choice_optional
           (sample_choice_question 3 2 None) (AnswerList [11; 12]) None);
    try reflexivity.
  left. vm_compute. reflexivity.
Defined.

(** ** [_validate_date] (lines 122-247) *)

Lemma strftime_midnight (d : date) :
  strftime (d * 86400) = str_date d +:+ " 00:00:00".
Proof.
  unfold strftime. rewrite Z_mod_mult, Z.div_mul by lia. reflexivity.
Qed.

Lemma int_hours_whole h : int_hours (h * 3600) = h.
Proof. unfold int_hours. apply Z.quot_mul. lia. Qed.

Lemma resolve_bounds_today_window_west self date_now diff_hour :
  validation_min_datetime_option self = Some "today" →
  validation_max_datetime_option self = Some "today" →
  -23 ≤ diff_hour ≤ 0 →
  resolve_bounds self true date_now diff_hour
  = Run [] (Return (Bounds (Some (date_now * 86400 - diff_hour * 3600))
                      (Some ((date_now + 1) * 86400 - diff_hour * 3600 - 1))
                      1)).
Proof.
  intros Hmin Hmax Hd. unfold resolve_bounds.
  rewrite (datetime_min_bound_today _ _ _ Hmin).
  rewrite (datetime_max_bound_today_west _ _ _ Hmax Hd). reflexivity.
Qed.

Lemma check_range_ext q q' is_datetime tz b v :
  id q = id q' → validation_error_msg q = validation_error_msg q' →
  check_range q is_datetime tz b v = check_range q' is_datetime tz b v.
Proof. intros Hid Hmsg. unfold check_range. by rewrite Hid, Hmsg. Qed.

Lemma resolve_bounds_ext q q' date_now diff_hour :
  question_type q = question_type q' →
  same_date_settings q q' →
  resolve_bounds q (String.eqb (question_type q) "datetime") date_now
    diff_hour
  = resolve_bounds q' (String.eqb (question_type q') "datetime") date_now
      diff_hour.
Proof.
  intros Hty. unfold same_date_settings, same_side. rewrite <- Hty.
  destruct (String.eqb (question_type q) "datetime");
    intros [[Ho1 Hb1] [Ho2 Hb2]]; unfold resolve_bounds.
  - unfold datetime_min_bound, datetime_max_bound. rewrite <- Ho1, <- Ho2.
    destruct (truthy_str (validation_min_datetime_option q));
      destruct (truthy_str (validation_max_datetime_option q));
      rewrite <- ?Hb1, <- ?Hb2 by done; reflexivity.
  - unfold date_min_bound, date_max_bound. rewrite <- Ho1, <- Ho2.
    destruct (truthy_str (validation_min_date_option q));
      destruct (truthy_str (validation_max_date_option q));
      rewrite <- ?Hb1, <- ?Hb2 by done; reflexivity.
Qed.

Lemma resolve_bounds_log self is_datetime date_now diff_hour :
  (length (log (resolve_bounds self is_datetime date_now diff_hour)) ≤ 2)%nat
  ∧ ((if is_datetime
      then known_anchor (validation_min_datetime_option self)
           ∧ known_anchor (validation_max_datetime_option self)
      else known_anchor (validation_min_date_option self)
           ∧ known_anchor (validation_max_date_option self)) →
     log (resolve_bounds self is_datetime date_now diff_hour) = []).
Proof.
  unfold resolve_bounds, known_anchor, datetime_min_bound,
    datetime_max_bound, date_min_bound, date_max_bound.
  destruct is_datetime.
  - destruct (truthy_str (validation_min_datetime_option self));
      destruct (is_today (validation_min_datetime_option self));
      destruct (truthy_str (validation_max_datetime_option self));
      destruct (is_today (validation_max_datetime_option self));
      rewrite ?(new_datetime_of_date date_now 0) by lia;
      try destruct (new_datetime _ _ _ (- diff_hour));
      simpl; (split; [lia | intros [H1 H2]; try done;
                             (by specialize (H1 eq_refl))
                             || (by specialize (H2 eq_refl))]).
  - destruct (truthy_str (validation_min_date_option self));
      destruct (is_today (validation_min_date_option self));
      destruct (truthy_str (validation_max_date_option self));
      destruct (is_today (validation_max_date_option self));
      simpl; (split; [lia | intros [H1 H2]; try done;
                             (by specialize (H1 eq_refl))
                             || (by specialize (H2 eq_refl))]).
Qed.

Section DateFurther.

Variable Date_from_string : string → outcome (option date).
Variable Datetime_from_string : string → outcome (option datetime).
Variable timezone : string → tzinfo.

Local Abbreviation validate :=
  (_validate_date Date_from_string Datetime_from_string timezone).
Local Abbreviation is_datetime self :=
  (String.eqb (question_type self) "datetime").
Local Abbreviation parse self answer :=
  (if is_datetime self then Datetime_from_string answer
   else Date_from_string answer).
Local Abbreviation user_timezone e := (timezone (str_or (user_tz e) "UTC")).
Local Abbreviation date_now e := (aware_date (now_utc e) (user_timezone e)).
Local Abbreviation diff_hour e :=
  (int_hours (utcoffset_seconds (now_utc e) (user_timezone e))).

(** X7. A question that is not a datetime one, with validation on and both
    date anchors on today, accepts exactly today's date on the user's
    clock; any other date is answered, nothing being logged, with the
    custom message or with "between" yesterday "and" tomorrow. *)
Theorem validate_date_today_only self answer e a :
  question_type self ≠ "datetime" →
  Date_from_string answer = Return (Some a) →
  validation_required self = true →
  validation_min_date_option self = Some "today" →
  validation_max_date_option self = Some "today" →
  _validate_date Date_from_string Datetime_from_string timezone self answer e
  = Run []
      (Return
         (if a =? date_now e then ∅
          else {[ id self :=
                    str_or (validation_error_msg self)
                      (msg_between (str_date (date_now e - 1))
                         (str_date (date_now e + 1))) ]})).
Proof.
  intros Hty Hparse Hreq Hmin Hmax. apply String.eqb_neq in Hty.
  rewrite (validate_date_resolved _ _ _ self answer e (Some a) []
             (Bounds (Some (date_now e)) (Some (date_now e)) 0));
    rewrite ?Hty; try done.
  2: { by apply date_bounds_today. }
  rewrite check_range_parsed. simpl.
  destruct (Z.eqb_spec a (date_now e)) as [->|Hne].
  - by rewrite Z.leb_refl.
  - destruct (Z.leb_spec (date_now e) a), (Z.leb_spec a (date_now e));
      simpl; try done. lia.
Qed.

(** X8. West of Greenwich or at it (a whole-hour offset from -23 to 0), a
    datetime question with both anchors on today returns, and accepts
    exactly the instants that, moved by the whole-hour offset, fall on
    today's date: a window of 86400 seconds starting at the user's
    midnight. *)
Theorem validate_date_today_window_west self answer e a :
  question_type self = "datetime" →
  Datetime_from_string answer = Return (Some a) →
  validation_required self = true →
  validation_min_datetime_option self = Some "today" →
  validation_max_datetime_option self = Some "today" →
  -23 ≤ diff_hour e ≤ 0 →
  let r := result (_validate_date Date_from_string Datetime_from_string
                     timezone self answer e) in
  (is_valid r ↔ (a + diff_hour e * 3600) / 86400 = date_now e)
  ∧ (is_valid r ∨ is_error self r).
Proof.
  intros Hty Hparse Hreq Hmin Hmax Hwest.
  rewrite (validate_date_resolved _ _ _ self answer e (Some a) []
             (Bounds (Some (date_now e * 86400 - diff_hour e * 3600))
                (Some ((date_now e + 1) * 86400 - diff_hour e * 3600 - 1))
                1));
    rewrite ?Hty; try done.
  2: { by apply resolve_bounds_today_window_west. }
  simpl. rewrite check_range_parsed. simpl.
  set (D := date_now e). set (h := diff_hour e).
  assert (Hwin : D * 86400 - h * 3600 ≤ a ≤ (D + 1) * 86400 - h * 3600 - 1
                 ↔ (a + h * 3600) / 86400 = D)
    by (Z.div_mod_to_equations; lia).
  destruct (Z.leb_spec (D * 86400 - h * 3600) a),
    (Z.leb_spec a ((D + 1) * 86400 - h * 3600 - 1)); simpl.
  - split; [|by left]. split; [intros _; apply Hwin; lia | done].
  - split; [|right; by eexists].
    split; [intros H1; by apply Return_singleton_not_valid in H1 |].
    intros H1. apply Hwin in H1. lia.
  - split; [|right; by eexists].
    split; [intros H1; by apply Return_singleton_not_valid in H1 |].
    intros H1. apply Hwin in H1. lia.
  - split; [|right; by eexists].
    split; [intros H1; by apply Return_singleton_not_valid in H1 |].
    intros H1. apply Hwin in H1. lia.
Qed.

(** X9. The minimum anchored on today works in every zone: on a datetime
    question with that anchor and no maximum anchor, whose bounds can be
    shown (they are not at an end of the calendar), the method returns
    whatever the offset, and accepts exactly the instants from the
    user's midnight (less the whole-hour offset) on, up to the explicit
    maximum if there is one. *)
Theorem validate_date_min_today_any_zone self answer e a :
  question_type self = "datetime" →
  Datetime_from_string answer = Return (Some a) →
  validation_required self = true →
  validation_min_datetime_option self = Some "today" →
  truthy_str (validation_max_datetime_option self) = false →
  can_show true (user_timezone e)
    (Bounds (Some (date_now e * 86400 - diff_hour e * 3600))
       (validation_max_datetime self) 0) →
  let r := result (_validate_date Date_from_string Datetime_from_string
                     timezone self answer e) in
  (is_valid r
   ↔ date_now e * 86400 - diff_hour e * 3600 ≤ a
     ∧ ∀ mx, validation_max_datetime self = Some mx → a ≤ mx)
  ∧ (is_valid r ∨ is_error self r).
Proof.
  intros Hty Hparse Hreq Hmin Hmax _.
  rewrite (validate_date_resolved _ _ _ self answer e (Some a) []
             (Bounds (Some (date_now e * 86400 - diff_hour e * 3600))
                (validation_max_datetime self) 0));
    rewrite ?Hty; try done.
  2: { unfold resolve_bounds.
       rewrite (datetime_min_bound_today _ _ _ Hmin).
       unfold datetime_max_bound. rewrite Hmax. reflexivity. }
  simpl. rewrite check_range_parsed. simpl.
  destruct (validation_max_datetime self) as [mx|].
  - destruct (Z.leb_spec (date_now e * 86400 - diff_hour e * 3600) a),
      (Z.leb_spec a mx); simpl.
    + split; [|by left]. split; [|done]. intros _. split; [done|].
      intros mx' [= <-]. done.
    + split; [|right; by eexists].
      split; [intros H1; by apply Return_singleton_not_valid in H1 |].
      intros [_ H1]. specialize (H1 mx eq_refl). lia.
    + split; [|right; by eexists].
      split; [intros H1; by apply Return_singleton_not_valid in H1 |].
      intros [H1 _]. lia.
    + split; [|right; by eexists].
      split; [intros H1; by apply Return_singleton_not_valid in H1 |].
      intros [H1 _]. lia.
  - destruct (Z.leb_spec (date_now e * 86400 - diff_hour e * 3600) a).
    + split; [|by left]. split; [|done]. intros _. split; [done|]. done.
    + split; [|right; by eexists].
      split; [intros H1; by apply Return_singleton_not_valid in H1 |].
      intros [H1 _]. lia.
Qed.

(** X10. When the host's parser yields [None], as it does for an empty
    answer, and validation is on, the comparison of a bound with [None]
    raises [TypeError] as soon as one bound is in force; with no bound in
    force the answer is accepted. *)
Theorem validate_date_none_answer self answer e l b :
  parse self answer = Return None →
  validation_required self = true →
  resolve_bounds self (is_datetime self) (date_now e) (diff_hour e)
  = Run l (Return b) →
  _validate_date Date_from_string Datetime_from_string timezone self answer e
  = Run l (match min_date b, max_date b with
           | None, None => Return ∅
           | _, _ => Raise TypeError
           end).
Proof.
  intros Hparse Hreq Hres.
  rewrite (validate_date_resolved _ _ _ _ _ _ _ _ _ Hparse Hreq Hres).
  unfold check_range.
  destruct (min_date b), (max_date b); reflexivity.
Qed.

(** X11. For an answer that parses to a value and bounds that, where
    they resolve, can be shown (they are not at an end of the calendar), the
    method raises in one case only: validation is on, the question is a
    datetime one, its maximum is anchored on today and the whole-hour offset
    is outside -23..0 (east of Greenwich, in practice); the exception is
    then [ValueError]. In every other case it returns. *)
Theorem validate_date_raises_iff self answer e a :
  parse self answer = Return (Some a) →
  resolved_can_show (is_datetime self) (user_timezone e)
    (resolve_bounds self (is_datetime self) (date_now e) (diff_hour e)) →
  ((∃ x, result (_validate_date Date_from_string Datetime_from_string
                   timezone self answer e) = Raise x)
   ↔ validation_required self = true
     ∧ question_type self = "datetime"
     ∧ is_today (validation_max_datetime_option self) = true
     ∧ ¬ (-23 ≤ diff_hour e ≤ 0))
  ∧ ∀ x, result (_validate_date Date_from_string Datetime_from_string
                   timezone self answer e) = Raise x → x = ValueError.
Proof.
  intros Hparse _.
  assert (Hret :
    ¬ (validation_required self = true ∧ is_datetime self = true
       ∧ is_today (validation_max_datetime_option self) = true
       ∧ ¬ (-23 ≤ diff_hour e ≤ 0)) →
    ∀ x, result (validate self answer e) ≠ Raise x).
  { intros Hnot x Hx.
    destruct (validation_required self) eqn:Hreq.
    2: { rewrite (validate_date_not_required _ _ _ _ _ _ _ Hparse Hreq)
           in Hx. discriminate Hx. }
    destruct (validate_date_returns_elsewhere Date_from_string
                Datetime_from_string timezone self answer e)
      as [Hv | [m Hm]].
    - right. by exists a.
    - intros Hdt Htd.
      destruct (decide (-23 ≤ diff_hour e ≤ 0)) as [Hr|Hr]; [done|].
      destruct Hnot. by rewrite Hdt.
    - unfold is_valid in Hv. congruence.
    - congruence. }
  assert (Hraise :
    validation_required self = true → is_datetime self = true →
    is_today (validation_max_datetime_option self) = true →
    ¬ (-23 ≤ diff_hour e ≤ 0) →
    result (validate self answer e) = Raise ValueError).
  { intros Hreq Hdt Htd Hr.
    destruct (datetime_min_bound_returns self (date_now e) (diff_hour e))
      as (l & mn & Hmin).
    rewrite (validate_date_unresolved _ _ _ self answer e (Some a) l
               ValueError Hparse Hreq); [done|].
    rewrite Hdt. unfold resolve_bounds. rewrite Hmin.
    unfold datetime_max_bound. rewrite Htd.
    destruct (validation_max_datetime_option self) as [s|]; [|done].
    simpl in Htd. apply String.eqb_eq in Htd as ->. simpl.
    rewrite new_datetime_bad_hour by lia.
    rewrite bind_Return, bind_Raise. simpl. by rewrite app_nil_r. }
  split; [split|].
  - intros [x Hx].
    destruct (validation_required self) eqn:Hreq;
      destruct (is_datetime self) eqn:Hdt;
      destruct (is_today (validation_max_datetime_option self)) eqn:Htd;
      destruct (decide (-23 ≤ diff_hour e ≤ 0)) as [Hr|Hr];
      try (exfalso; apply (Hret ltac:(intros (? & ? & ? & ?); done) x Hx)).
    apply String.eqb_eq in Hdt. done.
  - intros (Hreq & Hty & Htd & Hr). exists ValueError.
    apply Hraise; try done. by apply String.eqb_eq.
  - intros x Hx.
    destruct (validation_required self) eqn:Hreq;
      destruct (is_datetime self) eqn:Hdt;
      destruct (is_today (validation_max_datetime_option self)) eqn:Htd;
      destruct (decide (-23 ≤ diff_hour e ≤ 0)) as [Hr|Hr];
      try (exfalso; apply (Hret ltac:(intros (? & ? & ? & ?); done) x Hx)).
    rewrite Hraise in Hx by done. congruence.
Qed.

(** X12. The method reads, besides the id, the kind, the flag and the
    custom message, only the settings of the question's own kind, and of
    these not the explicit bound of a side whose anchor is set: two
    questions that agree on all that get the same answer and the same
    log. *)
Theorem validate_date_reads_only_its_kind q q' answer e :
  id q = id q' →
  question_type q = question_type q' →
  validation_required q = validation_required q' →
  validation_error_msg q = validation_error_msg q' →
  same_date_settings q q' →
  _validate_date Date_from_string Datetime_from_string timezone q answer e
  = _validate_date Date_from_string Datetime_from_string timezone q' answer e.
Proof.
  intros Hid Hty Hreq Hmsg Hsame. unfold _validate_date. cbv zeta.
  rewrite (resolve_bounds_ext q q' _ _ Hty Hsame).
  rewrite <- Hty, <- Hreq, <- Hid.
  destruct (parse q answer) as [v|[]]; try reflexivity.
  destruct (validation_required q); cbn [negb]; [|reflexivity].
  destruct (resolve_bounds q' _ _ _) as [l [b|x]]; [|reflexivity].
  unfold lift. rewrite !bind_Return. cbn [log result].
  by rewrite (check_range_ext q q' _ _ _ _ Hid Hmsg).
Qed.

(** X13. After [_compute_validation_required] has run, a question of a
    kind outside the five supported ones is never checked against bounds:
    [_validate_date] accepts every answer of it that parses, and logs
    nothing. *)
Theorem validate_date_after_compute self q answer e v :
  q ∈ _compute_validation_required self →
  question_type q ∉ supported_types →
  parse q answer = Return v →
  _validate_date Date_from_string Datetime_from_string timezone q answer e
  = Run [] (Return ∅).
Proof.
  unfold _compute_validation_required. intros Hq Hty Hparse.
  apply list_elem_of_fmap in Hq as (q0 & -> & _).
  apply (validate_date_not_required _ _ _ _ _ _ v Hparse).
  rewrite compute_one_flag. rewrite compute_one_type in Hty.
  apply andb_false_iff. right.
  destruct (str_in (question_type q0) supported_types) eqn:Hs; [|done].
  by apply str_in_elem_of in Hs.
Qed.

(** X14. The method logs at most two lines, and none at all when each
    anchor of the question's kind is unset or is "today", whether it then
    returns or raises. *)
Theorem validate_date_log self answer e :
  (length (log (_validate_date Date_from_string Datetime_from_string
                  timezone self answer e)) ≤ 2)%nat
  ∧ (known_anchors self →
     log (_validate_date Date_from_string Datetime_from_string timezone
            self answer e) = []).
Proof.
  unfold _validate_date, known_anchors. cbv zeta.
  destruct (parse self answer) as [v|[]]; try (simpl; split; [lia|done]).
  destruct (validation_required self); simpl; [|split; [lia|done]].
  pose proof (resolve_bounds_log self (is_datetime self) (date_now e)
                (diff_hour e)) as [Hlen Hnil].
  destruct (resolve_bounds _ _ _ _) as [l [b|x]]; simpl in Hlen, Hnil.
  - unfold lift. rewrite bind_Return. simpl. rewrite app_nil_r.
    split; [done|]. intros Hk. by apply Hnil.
  - rewrite bind_Raise. simpl. split; [done|]. intros Hk. by apply Hnil.
Qed.

(** X15. In a zone that keeps one whole-hour offset from -23 to 0, an
    answer outside today's window on a datetime question with both anchors
    on today and no custom message is told the two midnights of the user's
    clock: "between" today 00:00:00 "and" tomorrow 00:00:00. *)
Theorem validate_date_today_window_message self answer e a h :
  question_type self = "datetime" →
  Datetime_from_string answer = Return (Some a) →
  validation_required self = true →
  validation_min_datetime_option self = Some "today" →
  validation_max_datetime_option self = Some "today" →
  validation_error_msg self = None →
  -23 ≤ h ≤ 0 →
  (∀ t, user_timezone e t = h * 3600) →
  (a + h * 3600) / 86400 ≠ date_now e →
  _validate_date Date_from_string Datetime_from_string timezone self answer e
  = Run []
      (Return {[ id self :=
         msg_between (str_date (date_now e) +:+ " 00:00:00")
           (str_date (date_now e + 1) +:+ " 00:00:00") ]}).
Proof.
  intros Hty Hparse Hreq Hmin Hmax Hmsg Hh Htz Hout.
  assert (Hdiff : diff_hour e = h).
  { unfold utcoffset_seconds. rewrite Htz. apply int_hours_whole. }
  rewrite (validate_date_resolved _ _ _ self answer e (Some a) []
             (Bounds (Some (date_now e * 86400 - h * 3600))
                (Some ((date_now e + 1) * 86400 - h * 3600 - 1)) 1));
    rewrite ?Hty; try done.
  2: { rewrite Hdiff. by apply resolve_bounds_today_window_west. }
  rewrite check_range_parsed, Hmsg.
  cbn [min_date max_date nb_second_delay str_or].
  unfold date_min_show, date_max_show, astimezone. cbn [negb].
  rewrite !Htz.
  set (D := date_now e) in *.
  assert (Hwin : ¬ (D * 86400 - h * 3600 ≤ a
                    ≤ (D + 1) * 86400 - h * 3600 - 1))
    by (intros Hw; apply Hout; Z.div_mod_to_equations; lia).
  replace (D * 86400 - h * 3600 + h * 3600) with (D * 86400) by lia.
  replace ((D + 1) * 86400 - h * 3600 - 1 + 1 + h * 3600)
    with ((D + 1) * 86400) by lia.
  rewrite !strftime_midnight.
  destruct (Z.leb_spec (D * 86400 - h * 3600) a),
    (Z.leb_spec a ((D + 1) * 86400 - h * 3600 - 1)); simpl; try done.
  lia.
Qed.

End DateFurther.

(** X7, witness: yesterday on the date question open today only. *)
Lemma validate_date_today_only_witness :
  validate_date (today_only_question None) "2024-01-14" env_utc
  = Run [] (Return {[ 42 :=
      "The date needs to be between 2024-01-14 and 2024-01-16." ]}).
Proof.
  apply (validate_date_today_only ref_Date_from_string
           ref_Datetime_from_string ref_timezone (today_only_question None)
           "2024-01-14" env_utc 19736);
    [discriminate | vm_compute; reflexivity | reflexivity ..].
Defined.

(** X8, witness: half past noon UTC for a user in Bogota (UTC-5). *)
Lemma validate_date_today_window_west_witness :
  let r := result (validate_date today_window_question
                     "2024-01-15 12:30:00" env_bogota) in
  (is_valid r ↔ (1705321800 + -5 * 3600) / 86400 = 19737)
  ∧ (is_valid r ∨ is_error today_window_question r).
Proof.
  apply (validate_date_today_window_west ref_Date_from_string
           ref_Datetime_from_string ref_timezone today_window_question
           "2024-01-15 12:30:00" env_bogota 1705321800);
    try reflexivity.
  vm_compute. split; intros H; discriminate H.
Defined.

(** X9, witness: the question opening today, for a user in Tokyo
    (UTC+9). *)
Lemma validate_date_min_today_any_zone_witness :
  let r := result (validate_date opening_today_question
                     "2024-01-15 12:30:00" env_tokyo) in
  (is_valid r
   ↔ 19737 * 86400 - 9 * 3600 ≤ 1705321800
     ∧ ∀ mx, validation_max_datetime opening_today_question = Some mx →
             1705321800 ≤ mx)
  ∧ (is_valid r ∨ is_error opening_today_question r).
Proof.
  apply (validate_date_min_today_any_zone ref_Date_from_string
           ref_Datetime_from_string ref_timezone opening_today_question
           "2024-01-15 12:30:00" env_tokyo 1705321800);
    try reflexivity.
  vm_compute. repeat split; intros H; discriminate H.
Defined.

(** X10, witness: the empty answer on the date question open today only. *)
Lemma validate_date_none_answer_witness :
  validate_date (today_only_question None) "" env_utc
  = Run [] (Raise TypeError).
Proof.
  apply (validate_date_none_answer ref_Date_from_string
           ref_Datetime_from_string ref_timezone (today_only_question None)
           "" env_utc [] (Bounds (Some 19737) (Some 19737) 0));
    reflexivity.
Defined.

(** X11, witness: the question open for the whole of today, for a user in
    Lagos (UTC+1). *)
Lemma validate_date_raises_iff_witness :
  ((∃ x, result (validate_date today_window_question "2024-01-15 12:30:00"
                   env_lagos) = Raise x)
   ↔ validation_required today_window_question = true
     ∧ question_type today_window_question = "datetime"
     ∧ is_today (validation_max_datetime_option today_window_question)
       = true
     ∧ ¬ (-23 ≤ 1 ≤ 0))
  ∧ ∀ x, result (validate_date today_window_question "2024-01-15 12:30:00"
                   env_lagos) = Raise x → x = ValueError.
Proof.
  apply (validate_date_raises_iff ref_Date_from_string
           ref_Datetime_from_string ref_timezone today_window_question
           "2024-01-15 12:30:00" env_lagos 1705321800).
  - vm_compute. reflexivity.
  - vm_compute. exact I.
Defined.

(** X12, witness: the date question open today only, and the same with an
    overridden explicit minimum and datetime settings. *)
Lemma validate_date_reads_only_its_kind_witness :
  validate_date (today_only_question None) "2024-01-14" env_utc
  = validate_date today_only_cluttered_question "2024-01-14" env_utc.
Proof.
  apply (validate_date_reads_only_its_kind ref_Date_from_string
           ref_Datetime_from_string ref_timezone (today_only_question None)
           today_only_cluttered_question "2024-01-14" env_utc);
    try reflexivity.
  vm_compute. repeat split; try reflexivity; intros H; discriminate H.
Defined.

(** X13, witness: the matrix question of the sample record set once the
    method has run. *)
Lemma validate_date_after_compute_witness :
  validate_date
    (set_validation_required
       (date_question "matrix" true None None None (Some "today")
          (Some "today") None None None None) false)
    "2024-01-14" env_utc
  = Run [] (Return ∅).
Proof.
  apply (validate_date_after_compute ref_Date_from_string
           ref_Datetime_from_string ref_timezone mixed_record_set
           (set_validation_required
              (date_question "matrix" true None None None (Some "today")
                 (Some "today") None None None None) false)
           "2024-01-14" env_utc (Some 19736)).
  - vm_compute. apply list_elem_of_here.
  - intros H. apply str_in_elem_of in H. vm_compute in H. discriminate H.
  - vm_compute. reflexivity.
Defined.

(** X14, witness: nothing is logged for the question open for the whole of
    today, even where the method raises. *)
Lemma validate_date_log_witness :
  log (validate_date today_window_question "2024-01-15 12:30:00" env_tokyo)
  = [].
Proof.
  apply (proj2 (validate_date_log ref_Date_from_string
                  ref_Datetime_from_string ref_timezone today_window_question
                  "2024-01-15 12:30:00" env_tokyo)).
  vm_compute. split; intros _; reflexivity.
Defined.

(** X15, witness: a second before the user's midnight, in Bogota. *)
Lemma validate_date_today_window_message_witness :
  validate_date today_window_question "2024-01-15 04:59:59" env_bogota
  = Run [] (Return {[ 42 :=
      "The date needs to be between 2024-01-15 00:00:00 and 2024-01-16 00:00:00." ]}).
Proof.
  apply (validate_date_today_window_message ref_Date_from_string
           ref_Datetime_from_string ref_timezone today_window_question
           "2024-01-15 04:59:59" env_bogota 1705294799 (-5));
    try reflexivity.
  - lia.
  - vm_compute. intros H. discriminate H.
Defined.
